(** * Imageverto: the in-browser image converter of [script.js]

    A shallow embedding of the [ImageConverter] class: the page is a finite
    map from element ids to elements, the methods are programs of a small
    state-and-exception monad over the converter's state, and the calls made
    to the browser (file reader, image decoder, canvas, timer) are recorded
    in a trace, in the order in which the script makes them. *)

From stdpp Require Import gmap strings list fin_maps pretty.
From Stdlib Require Import ZArith Ascii String.

Open Scope string_scope.
Open Scope Z_scope.

(** ** Strings, as the script uses them

    A string is a sequence of 8-bit characters. The only characters the
    script tells apart are ASCII letters, digits, the dash, the underscore and
    the dot; every other character of a file name is dropped by the regular
    expression, in this encoding as in JavaScript's. *)

Module Str.

(** The characters kept by [/[^a-zA-Z0-9-_]/g]: after the range [0-9] the
    dash and the underscore stand for themselves. *)
Definition is_name_char (c : ascii) : bool :=
  let n := N_of_ascii c in
  ((97 <=? n) && (n <=? 122) || (65 <=? n) && (n <=? 90) ||
   (48 <=? n) && (n <=? 57) || (n =? 45) || (n =? 95))%N.

(** [s.replace(/[^a-zA-Z0-9-_]/g, '')] *)
Fixpoint strip_non_name_chars (s : string) : string :=
  match s with
  | EmptyString => EmptyString
  | String c r =>
      if is_name_char c then String c (strip_non_name_chars r)
      else strip_non_name_chars r
  end.

(** [s.split(sep)] for a one-character separator. *)
Fixpoint split (sep : ascii) (s : string) : list string :=
  match s with
  | EmptyString => [EmptyString]
  | String c r =>
      if Ascii.eqb c sep then EmptyString :: split sep r
      else match split sep r with
           | h :: t => String c h :: t
           | [] => [String c EmptyString]
           end
  end.

(** An array element inside a template literal: a missing index reads
    [undefined], which prints as such. *)
Definition template_item (arr : list string) (i : nat) : string :=
  match arr !! i with
  | Some x => x
  | None => "undefined"
  end.

(** [s.includes(c)] for a single character. *)
Fixpoint has_char (c : ascii) (s : string) : bool :=
  match s with
  | EmptyString => false
  | String d r => Ascii.eqb d c || has_char c r
  end.

End Str.

(** The file name computed in [showDownload] (script.js 231-234). *)
Definition download_fileName (name format : string) : string :=
  let originalName :=
    Str.template_item (Str.split "." (Str.strip_non_name_chars name)) 0 in
  originalName +:+ "_converted." +:+ format.

(** ** The page and the converter's state *)

(** The attributes of a [File] that the script reads. *)
Record File := { name : string; type : string; size : Z }.

(** A page element, with the properties the script reads or writes. *)
Record Element := {
  classList : gset string;
  textContent : string;
  value : string;
  disabled : bool;
  style_width : string;
  href : string;
  download : string }.

(** The quality handed to the encoder is [slider.value / 100], a floating
    point number: it is kept as the slider's value, divided by 100. *)
Inductive Quality := Div100 (slider_value : string).

(** The two file readers of the script. *)
Inductive Reader := PreviewReader | ConvertReader.

(** What the script asks of the browser, and the progress it reports. *)
Inductive Event :=
  | EvProgress (percent : Z) (text : string)
  | EvFocus (id : string)
  | EvReadAsDataURL (reader : Reader) (file : File)
  | EvImgSrc (url : string)
  | EvFillRect (fillStyle : string) (x y w h : Z)
  | EvDrawImage (x y : Z)
  | EvToDataURL (mimeType : string) (quality : Quality)
  | EvSetTimeout (ms : Z).

(** [this] and the document. [supportedFormats] and [unsupportedFormats]
    are set once by the constructor and are constants below. *)
Record Converter := {
  currentFile : option File;
  document : gmap string Element;
  trace : list Event }.

Definition supportedFormats : list string :=
  ["jpeg"; "png"; "webp"; "gif"; "bmp"; "ico"; "tiff"; "svg"].

Definition unsupportedFormats : list string :=
  ["raw"; "cr2"; "nef"; "arw"; "dng"; "psd"; "ai"; "eps"; "heic"; "exr";
   "apng"; "jp2"].

(** [arr.includes(x)] on an array of strings. *)
Definition includes (arr : list string) (x : string) : bool :=
  existsb (String.eqb x) arr.

(** ** The monad: state, and exceptions that keep the state *)

Inductive Exn := TypeError (null_element : string).

Definition M (A : Type) : Type := Converter → (Exn + A) * Converter.

#[global] Instance M_ret : MRet M := λ A a s, (inr a, s).

#[global] Instance M_bind : MBind M := λ A B k m s,
  match m s with
  | (inr a, s') => k a s'
  | (inl e, s') => (inl e, s')
  end.

Definition throw {A} (e : Exn) : M A := λ s, (inl e, s).

Definition try_catch {A} (body : M A) (handler : Exn → M A) : M A := λ s,
  match body s with
  | (inl e, s') => handler e s'
  | (inr a, s') => (inr a, s')
  end.

Definition this_currentFile : M (option File) := λ s, (inr (currentFile s), s).

Definition set_currentFile (f : option File) : M unit := λ s,
  (inr tt, {| currentFile := f; document := document s; trace := trace s |}).

Definition set_document (d : gmap string Element) (s : Converter) : Converter :=
  {| currentFile := currentFile s; document := d; trace := trace s |}.

(** [document.getElementById(id).p], which throws on a missing element. *)
Definition element (id : string) : M Element := λ s,
  match document s !! id with
  | Some e => (inr e, s)
  | None => (inl (TypeError id), s)
  end.

(** [document.getElementById(id).p = v] and the like: [f] is the change
    made to the element. *)
Definition update (id : string) (f : Element → Element) : M unit := λ s,
  match document s !! id with
  | Some e => (inr tt, set_document (<[id := f e]> (document s)) s)
  | None => (inl (TypeError id), s)
  end.

Definition emit (ev : Event) : M unit := λ s,
  (inr tt, {| currentFile := currentFile s; document := document s;
              trace := trace s ++ [ev] |}).

(** *** Changes to one element *)

Definition set_classList (c : gset string) (e : Element) : Element :=
  {| classList := c; textContent := textContent e; value := value e;
     disabled := disabled e; style_width := style_width e; href := href e;
     download := download e |}.

Definition classList_add (c : string) (e : Element) : Element :=
  set_classList (classList e ∪ {[c]}) e.

Definition classList_remove (c : string) (e : Element) : Element :=
  set_classList (classList e ∖ {[c]}) e.

Definition set_textContent (t : string) (e : Element) : Element :=
  {| classList := classList e; textContent := t; value := value e;
     disabled := disabled e; style_width := style_width e; href := href e;
     download := download e |}.

Definition set_disabled (b : bool) (e : Element) : Element :=
  {| classList := classList e; textContent := textContent e; value := value e;
     disabled := b; style_width := style_width e; href := href e;
     download := download e |}.

Definition set_style_width (w : string) (e : Element) : Element :=
  {| classList := classList e; textContent := textContent e; value := value e;
     disabled := disabled e; style_width := w; href := href e;
     download := download e |}.

Definition set_href (u : string) (e : Element) : Element :=
  {| classList := classList e; textContent := textContent e; value := value e;
     disabled := disabled e; style_width := style_width e; href := u;
     download := download e |}.

Definition set_download (n : string) (e : Element) : Element :=
  {| classList := classList e; textContent := textContent e; value := value e;
     disabled := disabled e; style_width := style_width e; href := href e;
     download := n |}.

(** ** The methods of [ImageConverter] *)

(** script.js 272-278 *)
Definition showElement (id : string) : M unit :=
  update id (classList_remove "hidden").

Definition hideElement (id : string) : M unit :=
  update id (classList_add "hidden").

(** script.js 261-265 *)
Definition showError (message : string) : M unit :=
  update "errorMessage" (set_textContent message);;
  showElement "errorSection";;
  _ ← element "errorMessage";
  emit (EvFocus "errorMessage").

(** script.js 267-270 *)
Definition clearError : M unit :=
  update "errorMessage" (set_textContent "");;
  hideElement "errorSection".

(** script.js 244-254 *)
Definition showProgress : M unit :=
  showElement "progressSection";;
  update "convertBtn" (set_disabled true);;
  update "convertBtn" (classList_add "processing").

Definition hideProgress : M unit :=
  hideElement "progressSection";;
  update "convertBtn" (set_disabled false);;
  update "convertBtn" (classList_remove "processing").

(** script.js 256-259; the checkpoint is recorded once both writes are
    done. *)
Definition updateProgress (percent : Z) (text : string) : M unit :=
  update "progressBar" (set_style_width (pretty percent +:+ "%"));;
  update "progressText" (set_textContent text);;
  emit (EvProgress percent text).

(** script.js 119-135: the reader is started; its [onload] callback, which
    fills the preview, runs later and touches neither [currentFile] nor the
    elements below. *)
Definition showImagePreview (file : File) : M unit :=
  emit (EvReadAsDataURL PreviewReader file).

Definition msg_invalid_file : string := "Please select a valid image file.".
Definition msg_too_large : string := "File is too large. Maximum size is 10MB.".
Definition msg_unsupported : string :=
  "Conversion for this format is not supported in-browser. Use a desktop app instead.".
Definition msg_load_failed : string :=
  "Failed to load image. Please try a different file.".
Definition msg_conversion_failed : string :=
  "Conversion failed. Please try again.".
Definition msg_invalid_drop : string := "Please drop a valid image file.".

(** script.js 103-117; [None] is the [undefined] of an empty selection. *)
Definition handleFileSelect (file : option File) : M unit :=
  match file with
  | None => showError msg_invalid_file
  | Some f =>
      if negb (String.prefix "image/" (type f)) then
        showError msg_invalid_file
      else if 10 * 1024 * 1024 <? size f then
        showError msg_too_large
      else
        set_currentFile (Some f);;
        showImagePreview f;;
        showElement "formatSection";;
        hideElement "errorSection"
  end.

(** script.js 137-165 *)
Definition handleFormatChange : M unit :=
  formatSelect ← element "formatSelect";
  let format := value formatSelect in
  if String.eqb format "" then
    hideElement "convertBtn";;
    hideElement "qualitySection"
  else if includes unsupportedFormats format then
    showError msg_unsupported;;
    hideElement "convertBtn";;
    hideElement "qualitySection"
  else
    hideElement "errorSection";;
    (if includes ["jpeg"; "webp"] format then showElement "qualitySection"
     else hideElement "qualitySection");;
    showElement "convertBtn".

(** script.js 226-242 *)
Definition showDownload (dataUrl format : string) : M unit :=
  file ← this_currentFile;
  match file with
  | None => throw (TypeError "currentFile")
  | Some f =>
      let fileName := download_fileName (name f) format in
      update "downloadLink" (set_href dataUrl);;
      update "downloadLink" (set_download fileName);;
      update "downloadInfo" (set_textContent ("File: " +:+ fileName));;
      hideProgress;;
      showElement "downloadSection"
  end.

(** The canvas and its 2d context, local to one conversion. Setting a
    dimension resets the context. *)
Record Canvas := { width : Z; height : Z; fillStyle : string }.

Definition createCanvas : Canvas :=
  {| width := 300; height := 150; fillStyle := "#000000" |}.

Definition set_width (w : Z) (c : Canvas) : Canvas :=
  {| width := w; height := height c; fillStyle := "#000000" |}.

Definition set_height (h : Z) (c : Canvas) : Canvas :=
  {| width := width c; height := h; fillStyle := "#000000" |}.

Definition set_fillStyle (colour : string) (c : Canvas) : Canvas :=
  {| width := width c; height := height c; fillStyle := colour |}.

(** What the callbacks of one conversion close over. *)
Record Job := { job_format : string; job_quality : Quality; job_canvas : Canvas }.

(** script.js 167-224, up to the return of the call: [None] is the early
    return, [Some job] the conversion left waiting for its file reader. *)
Definition convertImage : M (option Job) :=
  formatSelect ← element "formatSelect";
  let format := value formatSelect in
  qualitySlider ← element "qualitySlider";
  let quality := Div100 (value qualitySlider) in
  file ← this_currentFile;
  match file with
  | None => mret None
  | Some f =>
      if String.eqb format "" then mret None
      else
        try_catch
          (showProgress;;
           updateProgress 20 "Loading image...";;
           emit (EvReadAsDataURL ConvertReader f);;
           mret (Some {| job_format := format; job_quality := quality;
                         job_canvas := createCanvas |}))
          (λ _,
           showError msg_conversion_failed;;
           hideProgress;;
           mret None)
  end.

(** script.js 216-218: [reader.onload] hands the data URL to the image. *)
Definition reader_onload (result : string) : M unit :=
  emit (EvImgSrc result).

(** script.js 181-208: [img.onload]; [img_width] and [img_height] are the
    decoded image's size and [encoded] is what [canvas.toDataURL] returns.
    The result is the data URL kept for the timer's callback. *)
Definition img_onload (job : Job) (img_width img_height : Z) (encoded : string)
    : M string :=
  let format := job_format job in
  let canvas := set_height img_height (set_width img_width (job_canvas job)) in
  updateProgress 50 "Processing image...";;
  canvas ← (if String.eqb format "jpeg" then
              let canvas := set_fillStyle "white" canvas in
              emit (EvFillRect (fillStyle canvas) 0 0 (width canvas) (height canvas));;
              mret canvas
            else mret canvas);
  emit (EvDrawImage 0 0);;
  updateProgress 80 "Converting format...";;
  let mimeType :=
    if String.eqb format "jpeg" then "image/jpeg" else "image/" +:+ format in
  emit (EvToDataURL mimeType (job_quality job));;
  let convertedDataUrl := encoded in
  updateProgress 100 "Complete!";;
  emit (EvSetTimeout 500);;
  mret convertedDataUrl.

(** script.js 210-213: [img.onerror] *)
Definition img_onerror : M unit :=
  showError msg_load_failed;;
  hideProgress.

(** script.js 40-43 and 60-70: the listeners of the file input and of the
    drop area. *)
Definition on_fileInput_change (file : option File) : M unit :=
  clearError;;
  handleFileSelect file.

Definition on_drop (file : option File) : M unit :=
  match file with
  | Some f =>
      if String.prefix "image/" (type f) then
        clearError;;
        handleFileSelect (Some f)
      else showError msg_invalid_drop
  | None => showError msg_invalid_drop
  end.

(** ** One conversion from the click to the download link

    The browser's part of a conversion: whether the file reader delivers a
    data URL, whether the image decodes (and to which size), and the data URL
    the canvas encodes to. *)
Record Host := {
  read_result : option string;
  decoded_size : option (Z * Z);
  encoded_url : string }.

(** The click on the convert button followed by the callbacks the browser
    fires for it, in their order: the reader's [onload], then the image's
    [onload] or [onerror], then the timer. *)
Definition conversion (host : Host) : M unit :=
  job ← convertImage;
  match job with
  | None => mret tt
  | Some job =>
      match read_result host with
      | None => mret tt
      | Some url =>
          reader_onload url;;
          match decoded_size host with
          | None => img_onerror
          | Some (w, h) =>
              dataUrl ← img_onload job w h (encoded_url host);
              showDownload dataUrl (job_format job)
          end
      end
  end.

(** ** Observations *)

(** Whether an element carries the class [hidden]. *)
Definition hidden (id : string) (s : Converter) : option bool :=
  (λ e, bool_decide ("hidden" ∈ classList e)) <$> document s !! id.

Definition errorMessage (s : Converter) : option string :=
  textContent <$> document s !! "errorMessage".

(** The error [msg] is on display. *)
Definition shows_error (msg : string) (s : Converter) : Prop :=
  errorMessage s = Some msg ∧ hidden "errorSection" s = Some false.

(** The value of the format select, which the methods read. *)
Definition selected_format (s : Converter) : option string :=
  value <$> document s !! "formatSelect".

(** The state a program leaves, and whether it ended without exception. *)
Definition state_after {A} (m : M A) (s : Converter) : Converter := (m s).2.

Definition completes {A} (m : M A) (s : Converter) : bool :=
  match (m s).1 with inr _ => true | inl _ => false end.

Definition present (id : string) (s : Converter) : Prop :=
  is_Some (document s !! id).

(** [m] ends normally from [s] with result [a], having added the events
    [t] to the trace, and having kept [currentFile] and the elements of the
    page. *)
Definition runs {A} (m : M A) (s : Converter) (a : A) (t : list Event) : Prop :=
  ∃ s', m s = (inr a, s')
        ∧ currentFile s' = currentFile s
        ∧ trace s' = (trace s ++ t)%list
        ∧ ∀ id, present id s' ↔ present id s.

(** The progress percentages reported, oldest first. *)
Definition progress_of (t : list Event) : list Z :=
  omap (λ ev, match ev with EvProgress p _ => Some p | _ => None end) t.

(** The drawing calls made on the canvas, oldest first. *)
Definition is_drawing (ev : Event) : bool :=
  match ev with
  | EvFillRect _ _ _ _ _ | EvDrawImage _ _ => true
  | _ => false
  end.

Definition drawing_of (t : list Event) : list Event := List.filter is_drawing t.

(** The ids the methods look up. *)
Definition page_ids : list string :=
  ["formatSelect"; "qualitySlider"; "convertBtn"; "qualitySection";
   "formatSection"; "errorSection"; "errorMessage"; "progressSection";
   "progressBar"; "progressText"; "downloadLink"; "downloadInfo";
   "downloadSection"].

Definition has_elements (ids : list string) (s : Converter) : bool :=
  forallb (λ id, match document s !! id with Some _ => true | None => false end)
          ids.

(** The page carries every element the script expects. The markup of the
    page is not part of [script.js]; the theorems below hold of any page with
    these elements, whatever else it contains. *)
Definition page_ok (s : Converter) : Prop := has_elements page_ids s = true.

(** *** A page to run the script on *)

Definition blank (classes : list string) : Element :=
  {| classList := list_to_set classes; textContent := ""; value := "";
     disabled := false; style_width := ""; href := ""; download := "" |}.

Definition select_of (v : string) : Element :=
  {| classList := ∅; textContent := ""; value := v;
     disabled := false; style_width := ""; href := ""; download := "" |}.

(** A fresh page with [format] chosen in the select and the slider at 80. *)
Definition page_with (file : option File) (format : string) : Converter :=
  {| currentFile := file;
     document :=
       list_to_map
         [("formatSelect", select_of format);
          ("qualitySlider", select_of "80");
          ("convertBtn", blank ["hidden"]);
          ("qualitySection", blank ["hidden"]);
          ("formatSection", blank ["hidden"]);
          ("errorSection", blank ["hidden"]);
          ("errorMessage", blank []);
          ("progressSection", blank ["hidden"]);
          ("progressBar", blank []);
          ("progressText", blank []);
          ("downloadLink", blank []);
          ("downloadInfo", blank []);
          ("downloadSection", blank ["hidden"])];
     trace := [] |}.

Definition photo_png : File :=
  {| name := "my photo!!.png"; type := "image/png"; size := 2048 |}.

(** The pages of the examples. *)
Definition page_empty : Converter := page_with None "".
Definition page_no_format : Converter := page_with (Some photo_png) "".
Definition page_webp : Converter := page_with (Some photo_png) "webp".
Definition page_jpeg : Converter := page_with (Some photo_png) "jpeg".
Definition page_heic : Converter := page_with (Some photo_png) "heic".
Definition page_raw : Converter := page_with (Some photo_png) "raw".
Definition page_avif : Converter := page_with (Some photo_png) "avif".

Definition huge_png : File :=
  {| name := "huge.png"; type := "image/png"; size := 10 * 1024 * 1024 + 1 |}.

Definition huge_text : File :=
  {| name := "notes.txt"; type := "text/plain"; size := 10 * 1024 * 1024 + 1 |}.

Definition small_text : File :=
  {| name := "notes.txt"; type := "text/plain"; size := 10 |}.

(** A browser that reads the file and decodes a 100 x 100 image. *)
Definition host_ok : Host :=
  {| read_result := Some "data:image/png;base64,iVBORw0KGgo=";
     decoded_size := Some (100, 100);
     encoded_url := "data:image/webp;base64,UklGRg==" |}.

(** ** The other listeners of the page *)

(** script.js 53-59 and 73-78: the highlight of the drop area, put by
    [dragover] and [touchstart], removed by [dragleave] and [touchend]. *)
Definition uploadArea_dragover : M unit :=
  update "uploadArea" (classList_add "drag-over").

Definition uploadArea_dragleave : M unit :=
  update "uploadArea" (classList_remove "drag-over").

Definition uploadArea_touchstart : M unit :=
  update "uploadArea" (classList_add "drag-over").

Definition uploadArea_touchend : M unit :=
  update "uploadArea" (classList_remove "drag-over").

(** script.js 60-70, whole: the highlight is removed, then the first
    dropped file is handed over as in [on_drop]. *)
Definition uploadArea_drop (file : option File) : M unit :=
  update "uploadArea" (classList_remove "drag-over");;
  on_drop file.

(** The first test of the drop listener: no file, or a type that does not
    start with "image/". *)
Definition not_image (file : option File) : bool :=
  match file with
  | Some f => negb (String.prefix "image/" (type f))
  | None => true
  end.

(** *** The preview (script.js 121-133) *)

(** [n.toFixed(2)] prints the integer number of hundredths nearest to [n],
    the larger one on a tie. [file.size / 1024 / 1024] is exact in floating
    point (an integer below 2^53 divided by a power of two), so that the
    number of hundredths is the integer part of [100 * size / 2^20 + 1/2]. *)
Definition hundredths_of_MB (size : Z) : Z :=
  (200 * size + 1048576) / 2097152.

Definition two_digits (n : Z) : string :=
  if n <? 10 then "0" +:+ pretty n else pretty n.

(** [(file.size / 1024 / 1024).toFixed(2)] *)
Definition toFixed2_MB (size : Z) : string :=
  let n := hundredths_of_MB size in
  pretty (n / 100) +:+ "." +:+ two_digits (n mod 100).

(** The text of [fileInfo]; the separator is the source's, byte for byte. *)
Definition fileInfo_text (file : File) : string :=
  toFixed2_MB (size file) +:+ " MB â€¢ " +:+ type file.

(** The page with the [src] of its images, which [Element] does not
    carry. *)
Record Page := { converter : Converter; img_src : gmap string string }.

(** [reader.onload] of [showImagePreview], with the data URL read. *)
Definition preview_onload (file : File) (result : string) (p : Page)
    : (Exn + unit) * Page :=
  match document (converter p) !! "previewImg" with
  | None => (inl (TypeError "previewImg"), p)
  | Some _ =>
      let srcs := <["previewImg" := result]> (img_src p) in
      let '(r, c) :=
        (update "fileName" (set_textContent (name file));;
         update "fileInfo" (set_textContent (fileInfo_text file));;
         showElement "imagePreview") (converter p) in
      (r, {| converter := c; img_src := srcs |})
  end.

(** *** The mobile menu (script.js 282-319)

    The three elements are looked up once, when the page loads; the
    listeners below run on a page that has them. *)

(** script.js 288-300: the click on the menu button. *)
Definition mobileMenuBtn_click : M unit :=
  mobileMenu ← element "mobileMenu";
  let isHidden := bool_decide ("hidden" ∈ classList mobileMenu) in
  if isHidden then
    showElement "mobileMenu";;
    hideElement "menuIcon";;
    showElement "closeIcon"
  else
    hideElement "mobileMenu";;
    showElement "menuIcon";;
    hideElement "closeIcon".

(** script.js 303-309: a click anywhere; [in_button] and [in_menu] tell
    whether the button, or the menu, contains the click's target. *)
Definition document_click (in_button in_menu : bool) : M unit :=
  if negb in_button && negb in_menu then
    hideElement "mobileMenu";;
    showElement "menuIcon";;
    hideElement "closeIcon"
  else mret tt.

(** script.js 312-318 *)
Definition window_resize (innerWidth : Z) : M unit :=
  if 768 <=? innerWidth then
    hideElement "mobileMenu";;
    showElement "menuIcon";;
    hideElement "closeIcon"
  else mret tt.

(** A click on the menu button reaches the button's listener, then the
    document's. *)
Definition click_on_menu_button : M unit :=
  mobileMenuBtn_click;;
  document_click true false.

(** Whether every character of [s] passes the regular expression's test. *)
Fixpoint all_name_chars (s : string) : bool :=
  match s with
  | EmptyString => true
  | String c r => Str.is_name_char c && all_name_chars r
  end.

(** *** More observations *)

Definition property {A} (p : Element → A) (id : string) (s : Converter)
    : option A :=
  p <$> document s !! id.

Definition has_class (c id : string) (s : Converter) : option bool :=
  property (λ e, bool_decide (c ∈ classList e)) id s.

(** The elements of the mobile menu are on the page. *)
Definition menu_ok (s : Converter) : Prop :=
  has_elements ["mobileMenu"; "menuIcon"; "closeIcon"] s = true.

(** The elements of the preview are on the page. *)
Definition preview_ok (s : Converter) : Prop :=
  has_elements ["previewImg"; "fileName"; "fileInfo"; "imagePreview"] s = true.

(** The page of [page_with], with the drop area, the preview and the
    mobile menu, open or closed. *)
Definition full_page (file : option File) (format : string) (menu_open : bool)
    : Converter :=
  {| currentFile := file;
     document :=
       <["uploadArea" := blank ["drag-over"]]>
       (<["previewImg" := blank []]>
       (<["fileName" := blank []]>
       (<["fileInfo" := blank []]>
       (<["imagePreview" := blank ["hidden"]]>
       (<["mobileMenu" := blank (if menu_open then [] else ["hidden"])]>
       (<["menuIcon" := blank (if menu_open then ["hidden"] else [])]>
       (<["closeIcon" := blank (if menu_open then [] else ["hidden"])]>
          (document (page_with file format)))))))));
     trace := [] |}.

(** A page without its progress bar. *)
Definition page_without_progressBar : Converter :=
  set_document (delete "progressBar" (document page_webp)) page_webp.

Definition limit_png : File :=
  {| name := "limit.png"; type := "image/png"; size := 10 * 1024 * 1024 |}.

(** A browser whose file reader fails, and one whose image decoder fails. *)
Definition host_read_fails : Host :=
  {| read_result := None; decoded_size := None; encoded_url := "" |}.

Definition host_decode_fails : Host :=
  {| read_result := Some "data:image/png;base64,AAAA";
     decoded_size := None; encoded_url := "" |}.

(** *** The events of the page *)

Definition set_value (v : string) (e : Element) : Element :=
  {| classList := classList e; textContent := textContent e; value := v;
     disabled := disabled e; style_width := style_width e; href := href e;
     download := download e |}.

(** script.js 88-93: the callback of the slider's timer, which reads the
    slider when it fires. *)
Definition quality_timeout : M unit :=
  qualitySlider ← element "qualitySlider";
  update "qualityValue" (set_textContent (value qualitySlider)).

(** What the browser delivers to the script: the events of the listeners
    of [initializeEventListeners] and [initializeMobileMenu], and the
    callbacks of a conversion, each with what its closure holds. The browser
    has set the select's value when [change] is delivered. Three listeners
    are left out: [keydown] on the file input (it opens the file dialog),
    [input] on the slider (it only resets the timer of [QualityTimeout]) and
    the dark mode toggle (it changes a class of the document's body); none of
    them reads or writes [currentFile] or an element below. *)
Inductive PageEvent :=
  | FileInputChange (file : option File)
  | UploadAreaDragOver
  | UploadAreaDragLeave
  | UploadAreaDrop (file : option File)
  | UploadAreaTouchStart
  | UploadAreaTouchEnd
  | FormatSelectChange (v : string)
  | ConvertBtnClick
  | QualityTimeout
  | ReaderOnload (result : string)
  | ImgOnload (job : Job) (img_width img_height : Z) (encoded : string)
  | ImgOnerror
  | DownloadTimeout (dataUrl format : string)
  | MobileMenuBtnClick
  | DocumentClick (in_button in_menu : bool)
  | WindowResize (innerWidth : Z).

Definition listener (ev : PageEvent) : M unit :=
  match ev with
  | FileInputChange file => on_fileInput_change file
  | UploadAreaDragOver => uploadArea_dragover
  | UploadAreaDragLeave => uploadArea_dragleave
  | UploadAreaDrop file => uploadArea_drop file
  | UploadAreaTouchStart => uploadArea_touchstart
  | UploadAreaTouchEnd => uploadArea_touchend
  | FormatSelectChange v =>
      update "formatSelect" (set_value v);;
      handleFormatChange
  | ConvertBtnClick => _ ← convertImage; mret tt
  | QualityTimeout => quality_timeout
  | ReaderOnload result => reader_onload result
  | ImgOnload job w h encoded => _ ← img_onload job w h encoded; mret tt
  | ImgOnerror => img_onerror
  | DownloadTimeout dataUrl format => showDownload dataUrl format
  | MobileMenuBtnClick => mobileMenuBtn_click
  | DocumentClick in_button in_menu => document_click in_button in_menu
  | WindowResize innerWidth => window_resize innerWidth
  end.

(** The page after a sequence of events; a listener that throws leaves
    the page as it was when it threw, and the next event is handled. *)
Fixpoint handle_all (evs : list PageEvent) (s : Converter) : Converter :=
  match evs with
  | [] => s
  | ev :: rest => handle_all rest (state_after (listener ev) s)
  end.

(** The two tests a file passes before it is stored. *)
Definition accepted (f : File) : bool :=
  String.prefix "image/" (type f) && (size f <=? 10 * 1024 * 1024).

Definition currentFile_accepted (s : Converter) : bool :=
  match currentFile s with
  | Some f => accepted f
  | None => true
  end.

(** [m] leaves the current file alone or replaces it by an accepted one. *)
Definition file_safe {A} (m : M A) : Prop :=
  ∀ s, currentFile (m s).2 = currentFile s
       ∨ ∃ f, currentFile (m s).2 = Some f ∧ accepted f = true.

Definition other_png : File :=
  {| name := "holiday.png"; type := "image/png"; size := 4096 |}.

(** *** [img.onload], cut at its progress checkpoints

    The statements of script.js 182-185, then 187-195, then 197-207: each
    part ends with a call of [updateProgress] (the last one also starts the
    timer), and [img_onload] is the three parts in a row. *)
Definition img_onload_to_50 : M unit :=
  updateProgress 50 "Processing image...".

Definition img_onload_to_80 (job : Job) (img_width img_height : Z) : M unit :=
  let format := job_format job in
  let canvas := set_height img_height (set_width img_width (job_canvas job)) in
  _ ← (if String.eqb format "jpeg" then
          let canvas := set_fillStyle "white" canvas in
          emit (EvFillRect (fillStyle canvas) 0 0 (width canvas) (height canvas));;
          mret canvas
        else mret canvas);
  emit (EvDrawImage 0 0);;
  updateProgress 80 "Converting format...".

Definition img_onload_to_100 (job : Job) (encoded : string) : M string :=
  let format := job_format job in
  let mimeType :=
    if String.eqb format "jpeg" then "image/jpeg" else "image/" +:+ format in
  emit (EvToDataURL mimeType (job_quality job));;
  let convertedDataUrl := encoded in
  updateProgress 100 "Complete!";;
  emit (EvSetTimeout 500);;
  mret convertedDataUrl.

(** The progress surface: the width of the bar and the text under it. *)
Definition progress_bar (s : Converter) : option string :=
  property style_width "progressBar" s.

Definition progress_text (s : Converter) : option string :=
  property textContent "progressText" s.

(** ** Lemmas on strings *)

Lemma dot_not_name_char : Str.is_name_char "." = false.
Proof. reflexivity. Qed.

Lemma strip_has_no_dot (s : string) :
  Str.has_char "." (Str.strip_non_name_chars s) = false.
Proof.
  induction s as [|c r IH]; simpl; [done|].
  destruct (Str.is_name_char c) eqn:Hc; [|done].
  simpl. rewrite IH, orb_false_r.
  apply Ascii.eqb_neq. intros ->. by rewrite dot_not_name_char in Hc.
Qed.

Lemma split_no_sep (sep : ascii) (s : string) :
  Str.has_char sep s = false → Str.split sep s = [s].
Proof.
  induction s as [|c r IH]; simpl; [done|].
  intros [Hc Hr]%orb_false_iff. rewrite Hc, (IH Hr). done.
Qed.

(** The [split('.')[0]] of [showDownload] never cuts anything: the dots are
    gone before it runs. *)
Lemma download_fileName_keeps_extension (name format : string) :
  download_fileName name format
  = Str.strip_non_name_chars name +:+ "_converted." +:+ format.
Proof.
  unfold download_fileName.
  by rewrite (split_no_sep _ _ (strip_has_no_dot name)).
Qed.

(** C1 (the code at the spec's example): for the file name "my photo!!.png"
    and the target format webp the script computes
    "myphotopng_converted.webp", the extension's letters included, and not the
    "myphoto_converted.webp" of the specification. *)
Theorem download_fileName_my_photo :
  download_fileName "my photo!!.png" "webp" = "myphotopng_converted.webp"
  ∧ download_fileName "my photo!!.png" "webp" ≠ "myphoto_converted.webp".
Proof. split; [reflexivity | discriminate]. Qed.

(** ** Running the monad *)

Lemma has_elements_present (ids : list string) (s : Converter) (id : string) :
  has_elements ids s = true → id ∈ ids → present id s.
Proof.
  unfold has_elements, present. rewrite forallb_forall.
  intros Hall Hin%list_elem_of_In. specialize (Hall _ Hin).
  by destruct (document s !! id).
Qed.

Lemma bind_inr {A B} (m : M A) (k : A → M B) (s s' : Converter) (a : A) :
  m s = (inr a, s') → (m ≫= k) s = k a s'.
Proof. unfold mbind, M_bind. by intros ->. Qed.

Lemma element_run (id : string) (s : Converter) (e : Element) :
  document s !! id = Some e → element id s = (inr e, s).
Proof. unfold element. by intros ->. Qed.

Lemma update_run (id : string) (f : Element → Element) (s : Converter) :
  present id s →
  update id f s = (inr tt, set_document (alter f id (document s)) s).
Proof.
  unfold update. intros [e He]. by rewrite He, (alter_alt_Some _ _ _ _ He).
Qed.

Lemma emit_run (ev : Event) (s : Converter) :
  emit ev s = (inr tt, {| currentFile := currentFile s; document := document s;
                          trace := trace s ++ [ev] |}).
Proof. reflexivity. Qed.

(** An element stays on the page whatever is changed on it. *)
Ltac present :=
  unfold present in *; cbn [document currentFile trace set_document];
  rewrite ?lookup_alter_is_Some; assumption.

Ltac run_with lem :=
  first [ erewrite bind_inr; [| apply lem; present ]
        | etransitivity; [ apply lem; present | reflexivity ] ].

Lemma showElement_run (id : string) (s : Converter) :
  present id s →
  showElement id s
  = (inr tt, set_document (alter (classList_remove "hidden") id (document s)) s).
Proof. apply update_run. Qed.

Lemma hideElement_run (id : string) (s : Converter) :
  present id s →
  hideElement id s
  = (inr tt, set_document (alter (classList_add "hidden") id (document s)) s).
Proof. apply update_run. Qed.

Lemma element_then {B} (id : string) (m : M B) (s : Converter) :
  present id s → (element id ≫= λ _, m) s = m s.
Proof. intros [e He]. by rewrite (bind_inr _ _ _ _ _ (element_run _ _ _ He)). Qed.

Lemma showError_run (message : string) (s : Converter) :
  present "errorMessage" s → present "errorSection" s →
  showError message s
  = (inr tt,
     {| currentFile := currentFile s;
        document :=
          alter (classList_remove "hidden") "errorSection"
            (alter (set_textContent message) "errorMessage" (document s));
        trace := trace s ++ [EvFocus "errorMessage"] |}).
Proof.
  intros Hm Hs. unfold showError.
  run_with update_run. run_with showElement_run.
  rewrite element_then by present. reflexivity.
Qed.

Lemma clearError_run (s : Converter) :
  present "errorMessage" s → present "errorSection" s →
  clearError s
  = (inr tt,
     set_document
       (alter (classList_add "hidden") "errorSection"
          (alter (set_textContent "") "errorMessage" (document s))) s).
Proof.
  intros Hm Hs. unfold clearError.
  run_with update_run. run_with hideElement_run.
Qed.

Lemma showProgress_run (s : Converter) :
  present "progressSection" s → present "convertBtn" s →
  showProgress s
  = (inr tt,
     set_document
       (alter (classList_add "processing") "convertBtn"
          (alter (set_disabled true) "convertBtn"
             (alter (classList_remove "hidden") "progressSection"
                (document s)))) s).
Proof.
  intros Hp Hb. unfold showProgress.
  run_with showElement_run. run_with update_run. run_with update_run.
Qed.

Lemma hideProgress_run (s : Converter) :
  present "progressSection" s → present "convertBtn" s →
  hideProgress s
  = (inr tt,
     set_document
       (alter (classList_remove "processing") "convertBtn"
          (alter (set_disabled false) "convertBtn"
             (alter (classList_add "hidden") "progressSection"
                (document s)))) s).
Proof.
  intros Hp Hb. unfold hideProgress.
  run_with hideElement_run. run_with update_run. run_with update_run.
Qed.

Lemma updateProgress_run (percent : Z) (text : string) (s : Converter) :
  present "progressBar" s → present "progressText" s →
  updateProgress percent text s
  = (inr tt,
     {| currentFile := currentFile s;
        document :=
          alter (set_textContent text) "progressText"
            (alter (set_style_width (pretty percent +:+ "%")) "progressBar"
               (document s));
        trace := trace s ++ [EvProgress percent text] |}).
Proof.
  intros Hb Ht. unfold updateProgress.
  run_with update_run. run_with update_run. reflexivity.
Qed.

(** Every element of [page_ids], by name. *)
Lemma page_ok_present (s : Converter) (id : string) :
  page_ok s → id ∈ page_ids → present id s.
Proof. apply has_elements_present. Qed.

Ltac page_elements H :=
  let get id :=
    let Hid := fresh "Hpresent" in
    assert (present id _) as Hid
      by (apply (page_ok_present _ id H), list_elem_of_In; simpl; tauto) in
  get "formatSelect"; get "qualitySlider"; get "convertBtn";
  get "qualitySection"; get "formatSection"; get "errorSection";
  get "errorMessage"; get "progressSection"; get "progressBar";
  get "progressText"; get "downloadLink"; get "downloadInfo";
  get "downloadSection".

Ltac lookups :=
  cbn [document currentFile trace set_document];
  repeat first [ rewrite lookup_alter_eq | rewrite lookup_alter_ne by done ].

(** Decides [hidden] and [errorMessage] on a state built by the run
    lemmas, from the presence of the element looked at. *)
Ltac observe :=
  unfold hidden, errorMessage; lookups;
  match goal with
  | H : present ?id ?s |- context [document ?s !! ?id] =>
      let e := fresh "e" in
      let He := fresh "He" in
      destruct H as [e He]; rewrite He
  end;
  cbn; f_equal;
  try (first [ apply bool_decide_eq_true | apply bool_decide_eq_false ];
       rewrite ?elem_of_union, ?elem_of_difference, ?elem_of_singleton;
       intuition congruence).

Lemma selected_format_element (s : Converter) (format : string) :
  selected_format s = Some format →
  ∃ e, document s !! "formatSelect" = Some e ∧ value e = format.
Proof.
  unfold selected_format. destruct (document s !! "formatSelect") as [e|];
    [|done].
  intros [= <-]. by exists e.
Qed.

Lemma includes_elem_of (arr : list string) (x : string) :
  includes arr x = true ↔ x ∈ arr.
Proof.
  unfold includes. rewrite existsb_exists, list_elem_of_In. split.
  - by intros (y & Hin & ->%String.eqb_eq).
  - intros Hin. exists x. by rewrite String.eqb_refl.
Qed.

Lemma includes_not_elem_of (arr : list string) (x : string) :
  includes arr x = false ↔ x ∉ arr.
Proof. rewrite <- includes_elem_of. by destruct (includes arr x). Qed.

Lemma eqb_empty_false (format : string) :
  format ≠ "" → String.eqb format "" = false.
Proof. by intros ?%String.eqb_neq. Qed.

Lemma handleFormatChange_empty (s : Converter) :
  page_ok s → selected_format s = Some "" →
  handleFormatChange s
  = (inr tt,
     set_document
       (alter (classList_add "hidden") "qualitySection"
          (alter (classList_add "hidden") "convertBtn" (document s))) s).
Proof.
  intros Hpage (e & He & Hv)%selected_format_element. page_elements Hpage.
  unfold handleFormatChange.
  rewrite (bind_inr _ _ _ _ _ (element_run _ _ _ He)), Hv. cbn [String.eqb].
  run_with hideElement_run. run_with hideElement_run.
Qed.

Lemma handleFormatChange_unsupported (s : Converter) (format : string) :
  page_ok s → selected_format s = Some format →
  format ∈ unsupportedFormats →
  handleFormatChange s
  = (inr tt,
     {| currentFile := currentFile s;
        document :=
          alter (classList_add "hidden") "qualitySection"
            (alter (classList_add "hidden") "convertBtn"
               (alter (classList_remove "hidden") "errorSection"
                  (alter (set_textContent msg_unsupported) "errorMessage"
                     (document s))));
        trace := trace s ++ [EvFocus "errorMessage"] |}).
Proof.
  intros Hpage (e & He & Hv)%selected_format_element Hin.
  page_elements Hpage. unfold handleFormatChange.
  rewrite (bind_inr _ _ _ _ _ (element_run _ _ _ He)), Hv.
  rewrite eqb_empty_false
    by (intros ->; apply list_elem_of_In in Hin; simpl in Hin;
        intuition discriminate).
  apply includes_elem_of in Hin as ->.
  run_with showError_run. run_with hideElement_run. run_with hideElement_run.
Qed.

Lemma handleFormatChange_accepted (s : Converter) (format : string) :
  page_ok s → selected_format s = Some format →
  format ≠ "" → format ∉ unsupportedFormats →
  handleFormatChange s
  = (inr tt,
     set_document
       (alter (classList_remove "hidden") "convertBtn"
          (alter (if includes ["jpeg"; "webp"] format
                  then classList_remove "hidden" else classList_add "hidden")
             "qualitySection"
             (alter (classList_add "hidden") "errorSection" (document s)))) s).
Proof.
  intros Hpage (e & He & Hv)%selected_format_element Hne Hnin.
  page_elements Hpage. unfold handleFormatChange.
  rewrite (bind_inr _ _ _ _ _ (element_run _ _ _ He)), Hv.
  rewrite eqb_empty_false by done.
  apply includes_not_elem_of in Hnin as ->.
  run_with hideElement_run.
  destruct (includes ["jpeg"; "webp"] format).
  - run_with showElement_run. run_with showElement_run.
  - run_with hideElement_run. run_with showElement_run.
Qed.

(** ** The claims *)

(** C7: [clearError] empties the error message and hides the error
    section, and leaves [currentFile] as it was: the selected file stays
    selected. *)
Theorem clearError_keeps_currentFile (s : Converter) :
  page_ok s →
  completes clearError s = true
  ∧ errorMessage (state_after clearError s) = Some ""
  ∧ hidden "errorSection" (state_after clearError s) = Some true
  ∧ currentFile (state_after clearError s) = currentFile s.
Proof.
  intros Hpage. page_elements Hpage.
  unfold completes, state_after. rewrite clearError_run by done. cbn [fst snd].
  repeat split; observe.
Qed.

Lemma clearError_keeps_currentFile_witness :
  completes clearError page_webp = true
  ∧ errorMessage (state_after clearError page_webp) = Some ""
  ∧ hidden "errorSection" (state_after clearError page_webp) = Some true
  ∧ currentFile (state_after clearError page_webp) = Some photo_png.
Proof. apply (clearError_keeps_currentFile page_webp). reflexivity. Defined.

(** C3: for a format of the rejected list, [handleFormatChange] puts the
    unsupported-format message on display and leaves the convert button
    hidden. *)
Theorem handleFormatChange_rejects (s : Converter) (format : string) :
  page_ok s → selected_format s = Some format →
  format ∈ unsupportedFormats →
  completes handleFormatChange s = true
  ∧ shows_error msg_unsupported (state_after handleFormatChange s)
  ∧ hidden "convertBtn" (state_after handleFormatChange s) = Some true.
Proof.
  intros Hpage Hsel Hin. page_elements Hpage.
  unfold completes, state_after, shows_error.
  rewrite (handleFormatChange_unsupported _ _ Hpage Hsel Hin). cbn [fst snd].
  repeat split; observe.
Qed.

Lemma handleFormatChange_rejects_witness :
  completes handleFormatChange page_heic = true
  ∧ shows_error msg_unsupported (state_after handleFormatChange page_heic)
  ∧ hidden "convertBtn" (state_after handleFormatChange page_heic) = Some true.
Proof.
  apply (handleFormatChange_rejects page_heic "heic").
  - reflexivity.
  - reflexivity.
  - apply list_elem_of_In. simpl. tauto.
Defined.

(** C4: for a format of the convertible list, [handleFormatChange] shows
    the convert button, and the quality section is shown exactly when the
    format is jpeg or webp (and is hidden otherwise). *)
Theorem handleFormatChange_convertible (s : Converter) (format : string) :
  page_ok s → selected_format s = Some format →
  format ∈ supportedFormats →
  completes handleFormatChange s = true
  ∧ hidden "convertBtn" (state_after handleFormatChange s) = Some false
  ∧ (hidden "qualitySection" (state_after handleFormatChange s) = Some false
     ↔ format = "jpeg" ∨ format = "webp")
  ∧ (hidden "qualitySection" (state_after handleFormatChange s) = Some true
     ↔ ¬ (format = "jpeg" ∨ format = "webp")).
Proof.
  intros Hpage Hsel Hin. page_elements Hpage.
  assert (format ≠ "" ∧ format ∉ unsupportedFormats) as [Hne Hnin].
  { apply list_elem_of_In in Hin. rewrite list_elem_of_In. simpl in *.
    split; [intros -> | intros Hu]; intuition (subst; discriminate). }
  unfold completes, state_after.
  rewrite (handleFormatChange_accepted _ _ Hpage Hsel Hne Hnin). cbn [fst snd].
  assert (format = "jpeg" ∨ format = "webp"
          ↔ includes ["jpeg"; "webp"] format = true) as ->.
  { rewrite includes_elem_of, !elem_of_cons, elem_of_nil. tauto. }
  split; [done|]. split; [observe|].
  destruct (includes ["jpeg"; "webp"] format).
  - assert (hidden "qualitySection"
              (set_document
                 (alter (classList_remove "hidden") "convertBtn"
                    (alter (classList_remove "hidden") "qualitySection"
                       (alter (classList_add "hidden") "errorSection"
                          (document s)))) s) = Some false) as -> by observe.
    split; split; (done || intros []; done).
  - assert (hidden "qualitySection"
              (set_document
                 (alter (classList_remove "hidden") "convertBtn"
                    (alter (classList_add "hidden") "qualitySection"
                       (alter (classList_add "hidden") "errorSection"
                          (document s)))) s) = Some true) as -> by observe.
    split; split; (done || intros []; done).
Qed.

Lemma handleFormatChange_convertible_witness :
  completes handleFormatChange page_webp = true
  ∧ hidden "convertBtn" (state_after handleFormatChange page_webp) = Some false
  ∧ (hidden "qualitySection" (state_after handleFormatChange page_webp)
     = Some false ↔ "webp" = "jpeg" ∨ "webp" = "webp")
  ∧ (hidden "qualitySection" (state_after handleFormatChange page_webp)
     = Some true ↔ ¬ ("webp" = "jpeg" ∨ "webp" = "webp")).
Proof.
  apply (handleFormatChange_convertible page_webp).
  - reflexivity.
  - reflexivity.
  - apply list_elem_of_In. simpl. tauto.
Defined.

(** C10: a non-empty format that is not in the rejected list is handled as
    a convertible one, whether or not it is in the convertible list: the
    convert button is shown, the error section is hidden, and neither the
    error message nor the trace changes ([showError] is not called). *)
Theorem handleFormatChange_unlisted (s : Converter) (format : string) :
  page_ok s → selected_format s = Some format →
  format ≠ "" → format ∉ unsupportedFormats →
  completes handleFormatChange s = true
  ∧ hidden "convertBtn" (state_after handleFormatChange s) = Some false
  ∧ hidden "errorSection" (state_after handleFormatChange s) = Some true
  ∧ errorMessage (state_after handleFormatChange s) = errorMessage s
  ∧ trace (state_after handleFormatChange s) = trace s.
Proof.
  intros Hpage Hsel Hne Hnin. page_elements Hpage.
  unfold completes, state_after.
  rewrite (handleFormatChange_accepted _ _ Hpage Hsel Hne Hnin). cbn [fst snd].
  split; [done|]. split; [observe|]. split; [observe|]. split; [|done].
  unfold errorMessage. by lookups.
Qed.

Lemma handleFormatChange_unlisted_witness :
  ("avif" ∉ supportedFormats)
  ∧ completes handleFormatChange page_avif = true
  ∧ hidden "convertBtn" (state_after handleFormatChange page_avif) = Some false
  ∧ hidden "errorSection" (state_after handleFormatChange page_avif) = Some true
  ∧ errorMessage (state_after handleFormatChange page_avif)
    = errorMessage page_avif
  ∧ trace (state_after handleFormatChange page_avif) = trace page_avif.
Proof.
  split.
  - rewrite list_elem_of_In. simpl. intuition discriminate.
  - apply (handleFormatChange_unlisted page_avif "avif").
    + reflexivity.
    + reflexivity.
    + discriminate.
    + rewrite list_elem_of_In. simpl. intuition discriminate.
Defined.

(** *** File selection *)

Lemma handleFileSelect_not_image (s : Converter) (f : File) :
  String.prefix "image/" (type f) = false →
  handleFileSelect (Some f) s = showError msg_invalid_file s.
Proof. unfold handleFileSelect. by intros ->. Qed.

Lemma handleFileSelect_oversized (s : Converter) (f : File) :
  String.prefix "image/" (type f) = true → 10 * 1024 * 1024 < size f →
  handleFileSelect (Some f) s = showError msg_too_large s.
Proof.
  unfold handleFileSelect. intros -> Hsize. cbn [negb].
  by apply Z.ltb_lt in Hsize as ->.
Qed.

Lemma shows_error_showError (s : Converter) (msg : string) :
  page_ok s →
  completes (showError msg) s = true
  ∧ shows_error msg (state_after (showError msg) s)
  ∧ currentFile (state_after (showError msg) s) = currentFile s.
Proof.
  intros Hpage. page_elements Hpage.
  unfold completes, state_after, shows_error.
  rewrite showError_run by done. cbn [fst snd].
  repeat split; observe.
Qed.

(** C2, as the code has it: a file over 10 MiB whose type starts with
    "image/" is refused with the too-large message; a file whose type does
    not start with "image/" is refused with the invalid-file message, whatever
    its size, small or large. *)
Theorem handleFileSelect_too_large (s : Converter) (f : File) :
  page_ok s →
  (String.prefix "image/" (type f) = true → 10 * 1024 * 1024 < size f →
   completes (handleFileSelect (Some f)) s = true
   ∧ shows_error msg_too_large (state_after (handleFileSelect (Some f)) s))
  ∧ (String.prefix "image/" (type f) = false →
     completes (handleFileSelect (Some f)) s = true
     ∧ shows_error msg_invalid_file
         (state_after (handleFileSelect (Some f)) s)).
Proof.
  intros Hpage.
  destruct (shows_error_showError s msg_too_large Hpage) as (Hl & Hlarge & _).
  destruct (shows_error_showError s msg_invalid_file Hpage) as (Hi & Hinv & _).
  unfold completes, state_after in *. split.
  - intros Htype Hsize. by rewrite (handleFileSelect_oversized _ _ Htype Hsize).
  - intros Htype. by rewrite (handleFileSelect_not_image _ _ Htype).
Qed.

Lemma handleFileSelect_too_large_witness :
  shows_error msg_too_large
    (state_after (handleFileSelect (Some huge_png)) page_empty)
  ∧ shows_error msg_invalid_file
      (state_after (handleFileSelect (Some huge_text)) page_empty)
  ∧ shows_error msg_invalid_file
      (state_after (handleFileSelect (Some small_text)) page_empty).
Proof.
  destruct (handleFileSelect_too_large page_empty huge_png)
    as (Hlarge & _); [reflexivity|].
  destruct (handleFileSelect_too_large page_empty huge_text)
    as (_ & Hhuge); [reflexivity|].
  destruct (handleFileSelect_too_large page_empty small_text)
    as (_ & Hsmall); [reflexivity|].
  split; [apply Hlarge; reflexivity|].
  split; [apply Hhuge; reflexivity | apply Hsmall; reflexivity].
Defined.

(** C2 as the specification words it fails: a text file of 10 MiB + 1
    bytes gets the invalid-file message, not the too-large one. *)
Lemma handleFileSelect_too_large_counterexample :
  10 * 1024 * 1024 < size huge_text
  ∧ errorMessage (state_after (handleFileSelect (Some huge_text)) page_empty)
    = Some msg_invalid_file
  ∧ ¬ shows_error msg_too_large
        (state_after (handleFileSelect (Some huge_text)) page_empty).
Proof.
  split; [reflexivity|]. split; [reflexivity|].
  intros [Hmsg _]. vm_compute in Hmsg. discriminate.
Qed.

(** C9: a refused file (type not starting with "image/", or over the size
    limit) leaves [currentFile] as it was, and an error is on display. *)
Theorem handleFileSelect_reject_keeps_file (s : Converter) (f : File) :
  page_ok s →
  String.prefix "image/" (type f) = false ∨ 10 * 1024 * 1024 < size f →
  completes (handleFileSelect (Some f)) s = true
  ∧ currentFile (state_after (handleFileSelect (Some f)) s) = currentFile s
  ∧ (shows_error msg_invalid_file (state_after (handleFileSelect (Some f)) s)
     ∨ shows_error msg_too_large (state_after (handleFileSelect (Some f)) s)).
Proof.
  intros Hpage Hrej.
  destruct (shows_error_showError s msg_too_large Hpage) as (Hl & Hlarge & Hfl).
  destruct (shows_error_showError s msg_invalid_file Hpage) as (Hi & Hinv & Hfi).
  unfold completes, state_after in *.
  destruct (String.prefix "image/" (type f)) eqn:Htype.
  - destruct Hrej as [|Hsize]; [done|].
    rewrite (handleFileSelect_oversized _ _ Htype Hsize). auto.
  - rewrite (handleFileSelect_not_image _ _ Htype). auto.
Qed.

Lemma handleFileSelect_reject_keeps_file_witness :
  completes (handleFileSelect (Some huge_png)) page_webp = true
  ∧ currentFile (state_after (handleFileSelect (Some huge_png)) page_webp)
    = Some photo_png
  ∧ (shows_error msg_invalid_file
       (state_after (handleFileSelect (Some huge_png)) page_webp)
     ∨ shows_error msg_too_large
         (state_after (handleFileSelect (Some huge_png)) page_webp)).
Proof.
  apply (handleFileSelect_reject_keeps_file page_webp huge_png).
  - reflexivity.
  - right. reflexivity.
Defined.

(** ** Sequencing runs *)

Lemma page_ok_same_elements (s s' : Converter) :
  (∀ id, present id s' ↔ present id s) → page_ok s → page_ok s'.
Proof.
  unfold page_ok, has_elements. rewrite !forallb_forall.
  intros Hsame Hall id Hin. specialize (Hall id Hin).
  destruct (document s !! id) as [e|] eqn:He; [|done].
  destruct (proj2 (Hsame id)) as [e' He']; [by exists e|].
  unfold present in *. by rewrite He'.
Qed.

Lemma runs_ret {A} (a : A) (s : Converter) : runs (mret a) s a [].
Proof. exists s. by rewrite app_nil_r. Qed.

Lemma runs_bind {A B} (m : M A) (k : A → M B) (s : Converter)
    (a : A) (b : B) (t t' : list Event) :
  page_ok s →
  runs m s a t →
  (∀ s', page_ok s' → currentFile s' = currentFile s → runs (k a) s' b t') →
  runs (m ≫= k) s b (t ++ t')%list.
Proof.
  intros Hpage (s1 & Hm & Hf1 & Ht1 & Hid1) Hk.
  destruct (Hk s1 (page_ok_same_elements _ _ Hid1 Hpage) Hf1)
    as (s2 & Hk2 & Hf2 & Ht2 & Hid2).
  exists s2. rewrite (bind_inr _ _ _ _ _ Hm). split; [done|].
  split; [congruence|]. split; [by rewrite Ht2, Ht1, app_assoc|].
  intros id. by rewrite Hid2.
Qed.

Lemma runs_try_catch {A} (body : M A) (handler : Exn → M A) (s : Converter)
    (a : A) (t : list Event) :
  runs body s a t → runs (try_catch body handler) s a t.
Proof.
  intros (s' & Hm & ?). exists s'. unfold try_catch. by rewrite Hm.
Qed.

Ltac runs_from lem :=
  eexists; split; [ apply lem; present |];
  split; [ reflexivity |];
  split; [ cbn [trace set_document]; rewrite ?app_nil_r; reflexivity |];
  intros ?; unfold present; cbn [document set_document];
  rewrite ?lookup_alter_is_Some; reflexivity.

Lemma runs_emit (ev : Event) (s : Converter) : runs (emit ev) s tt [ev].
Proof. by eexists. Qed.

(** Reads leave the state as it is. *)
Lemma runs_bind_currentFile {B} (k : option File → M B) (s : Converter)
    (b : B) (t : list Event) :
  runs (k (currentFile s)) s b t → runs (this_currentFile ≫= k) s b t.
Proof. done. Qed.

Lemma runs_bind_element {B} (id : string) (k : Element → M B) (s : Converter)
    (e : Element) (b : B) (t : list Event) :
  document s !! id = Some e → runs (k e) s b t → runs (element id ≫= k) s b t.
Proof.
  intros He (s' & Hk & ?). exists s'.
  by rewrite (bind_inr _ _ _ _ _ (element_run _ _ _ He)).
Qed.

Lemma runs_update (id : string) (f : Element → Element) (s : Converter) :
  present id s → runs (update id f) s tt [].
Proof. intros Hid. runs_from update_run. Qed.

Lemma runs_showElement (id : string) (s : Converter) :
  present id s → runs (showElement id) s tt [].
Proof. apply runs_update. Qed.

Lemma runs_showError (msg : string) (s : Converter) :
  page_ok s → runs (showError msg) s tt [EvFocus "errorMessage"].
Proof. intros Hpage. page_elements Hpage. runs_from showError_run. Qed.

Lemma runs_showProgress (s : Converter) :
  page_ok s → runs showProgress s tt [].
Proof. intros Hpage. page_elements Hpage. runs_from showProgress_run. Qed.

Lemma runs_hideProgress (s : Converter) :
  page_ok s → runs hideProgress s tt [].
Proof. intros Hpage. page_elements Hpage. runs_from hideProgress_run. Qed.

Lemma runs_updateProgress (percent : Z) (text : string) (s : Converter) :
  page_ok s → runs (updateProgress percent text) s tt [EvProgress percent text].
Proof. intros Hpage. page_elements Hpage. runs_from updateProgress_run. Qed.

Lemma runs_eq {A} (m : M A) (s : Converter) (a : A) (t t' : list Event) :
  runs m s a t → t = t' → runs m s a t'.
Proof. by intros ? <-. Qed.

Ltac page_present :=
  match goal with
  | H : page_ok ?s |- present ?id ?s =>
      apply (page_ok_present s id H), list_elem_of_In; simpl; tauto
  end.

(** One statement of a program, or the split of a sequence. *)
Ltac run_step :=
  lazymatch goal with
  | |- runs (mret _) _ _ _ => apply runs_ret
  | |- runs (emit _) _ _ _ => apply runs_emit
  | |- runs (this_currentFile ≫= _) _ _ _ => apply runs_bind_currentFile
  | |- runs (updateProgress _ _) _ _ _ => apply runs_updateProgress; assumption
  | |- runs (showError _) _ _ _ => apply runs_showError; assumption
  | |- runs showProgress _ _ _ => apply runs_showProgress; assumption
  | |- runs hideProgress _ _ _ => apply runs_hideProgress; assumption
  | |- runs (update _ _) _ _ _ => apply runs_update; page_present
  | |- runs (showElement _) _ _ _ => apply runs_showElement; page_present
  | |- runs (_ ≫= _) _ _ _ =>
      eapply runs_bind; [ assumption | | intros ? ? ? ]
  end.

Ltac run := repeat run_step.

Lemma runs_convertImage (s : Converter) (f : File) (format : string) :
  page_ok s → currentFile s = Some f →
  selected_format s = Some format → format ≠ "" →
  ∃ quality,
    runs convertImage s
      (Some {| job_format := format; job_quality := quality;
               job_canvas := createCanvas |})
      [EvProgress 20 "Loading image..."; EvReadAsDataURL ConvertReader f].
Proof.
  intros Hpage Hfile (e & He & Hv)%selected_format_element Hne.
  assert (present "qualitySlider" s) as [q Hq] by page_present.
  exists (Div100 (value q)). unfold convertImage.
  apply (runs_bind_element _ _ _ _ _ _ He).
  apply (runs_bind_element _ _ _ _ _ _ Hq).
  apply runs_bind_currentFile. rewrite Hfile, Hv, eqb_empty_false by done.
  apply runs_try_catch. eapply runs_eq; [run | reflexivity].
Qed.

Lemma convertImage_noop (s : Converter) :
  page_ok s →
  currentFile s = None ∨ selected_format s = Some "" →
  convertImage s = (inr None, s).
Proof.
  intros Hpage Hguard.
  assert (present "formatSelect" s) as [e He] by page_present.
  assert (present "qualitySlider" s) as [q Hq] by page_present.
  unfold convertImage.
  rewrite (bind_inr _ _ _ _ _ (element_run _ _ _ He)).
  rewrite (bind_inr _ _ _ _ _ (element_run _ _ _ Hq)).
  unfold this_currentFile, mbind, M_bind.
  destruct (currentFile s) as [f|]; [|done].
  destruct Hguard as [|Hsel]; [done|].
  unfold selected_format in Hsel. rewrite He in Hsel.
  injection Hsel as ->. done.
Qed.

Lemma runs_img_onload (s : Converter) (job : Job) (w h : Z) (encoded : string) :
  page_ok s →
  runs (img_onload job w h encoded) s encoded
    ([EvProgress 50 "Processing image..."]
     ++ (if String.eqb (job_format job) "jpeg"
         then [EvFillRect "white" 0 0 w h] else [])
     ++ [EvDrawImage 0 0;
         EvProgress 80 "Converting format...";
         EvToDataURL (if String.eqb (job_format job) "jpeg" then "image/jpeg"
                      else "image/" +:+ job_format job) (job_quality job);
         EvProgress 100 "Complete!";
         EvSetTimeout 500])%list.
Proof.
  intros Hpage. unfold img_onload.
  destruct (String.eqb (job_format job) "jpeg");
    (eapply runs_eq; [run | reflexivity]).
Qed.

Lemma runs_img_onerror (s : Converter) :
  page_ok s → runs img_onerror s tt [EvFocus "errorMessage"].
Proof. intros Hpage. unfold img_onerror. eapply runs_eq; [run | reflexivity]. Qed.

Lemma runs_showDownload (s : Converter) (f : File) (dataUrl format : string) :
  page_ok s → currentFile s = Some f →
  runs (showDownload dataUrl format) s tt [].
Proof.
  intros Hpage Hfile. unfold showDownload.
  apply runs_bind_currentFile. rewrite Hfile.
  eapply runs_eq; [run | reflexivity].
Qed.

Lemma runs_completes {A} (m : M A) (s : Converter) (a : A) (t : list Event) :
  runs m s a t →
  completes m s = true
  ∧ trace (state_after m s) = (trace s ++ t)%list
  ∧ currentFile (state_after m s) = currentFile s.
Proof.
  intros (s' & Hm & Hf & Ht & _). unfold completes, state_after.
  by rewrite Hm.
Qed.

(** A conversion whose file is read and whose image decodes: the events
    of the whole run, from the click to the timer. *)
Lemma runs_conversion (s : Converter) (host : Host) (f : File)
    (format url : string) (w h : Z) :
  page_ok s → currentFile s = Some f →
  selected_format s = Some format → format ≠ "" →
  read_result host = Some url → decoded_size host = Some (w, h) →
  ∃ quality,
    runs (conversion host) s tt
      ([EvProgress 20 "Loading image...";
        EvReadAsDataURL ConvertReader f;
        EvImgSrc url;
        EvProgress 50 "Processing image..."]
       ++ (if String.eqb format "jpeg"
           then [EvFillRect "white" 0 0 w h] else [])
       ++ [EvDrawImage 0 0;
           EvProgress 80 "Converting format...";
           EvToDataURL (if String.eqb format "jpeg" then "image/jpeg"
                        else "image/" +:+ format) quality;
           EvProgress 100 "Complete!";
           EvSetTimeout 500])%list.
Proof.
  intros Hpage Hfile Hsel Hne Hread Hdec.
  destruct (runs_convertImage s f format Hpage Hfile Hsel Hne) as [q Hconv].
  exists q. unfold conversion. rewrite Hread, Hdec.
  eapply runs_eq.
  - eapply runs_bind; [done | exact Hconv | intros s1 Hp1 Hf1].
    eapply runs_bind; [done | apply runs_emit | intros s2 Hp2 Hf2].
    eapply runs_bind; [done | by apply runs_img_onload | intros s3 Hp3 Hf3].
    apply (runs_showDownload _ f); [done | congruence].
  - cbn [job_format job_quality]. rewrite app_nil_r.
    by destruct (String.eqb format "jpeg").
Qed.

(** C5, as the code has it: [convertImage] returns at once, with the state
    as it was and nothing asked of the browser, unless a file is selected and
    the select's value is not empty; the same holds of the whole conversion,
    since no callback is then registered. *)
Theorem convertImage_guard (s : Converter) (host : Host) :
  page_ok s →
  currentFile s = None ∨ selected_format s = Some "" →
  convertImage s = (inr None, s) ∧ conversion host s = (inr tt, s).
Proof.
  intros Hpage Hguard. pose proof (convertImage_noop s Hpage Hguard) as Hnoop.
  split; [done|]. unfold conversion.
  by rewrite (bind_inr _ _ _ _ _ Hnoop).
Qed.

Lemma convertImage_guard_witness :
  convertImage page_no_format = (inr None, page_no_format)
  ∧ conversion host_ok page_no_format = (inr tt, page_no_format).
Proof.
  apply (convertImage_guard page_no_format host_ok).
  - reflexivity.
  - right. reflexivity.
Defined.

(** C5 as the specification words it fails: with a file selected and the
    rejected format raw in the select, [convertImage] starts the conversion,
    and the image is decoded, drawn and encoded as image/raw. *)
Lemma convertImage_guard_counterexample :
  currentFile page_raw = Some photo_png
  ∧ selected_format page_raw = Some "raw"
  ∧ ("raw" ∉ supportedFormats)
  ∧ state_after convertImage page_raw ≠ page_raw
  ∧ trace (state_after (conversion host_ok) page_raw)
    = [EvProgress 20 "Loading image...";
       EvReadAsDataURL ConvertReader photo_png;
       EvImgSrc "data:image/png;base64,iVBORw0KGgo=";
       EvProgress 50 "Processing image...";
       EvDrawImage 0 0;
       EvProgress 80 "Converting format...";
       EvToDataURL "image/raw" (Div100 "80");
       EvProgress 100 "Complete!";
       EvSetTimeout 500].
Proof.
  split; [reflexivity|]. split; [reflexivity|]. split; [|split].
  - rewrite list_elem_of_In. simpl. intuition discriminate.
  - intros Heq. apply (f_equal trace) in Heq. vm_compute in Heq. discriminate.
  - vm_compute. reflexivity.
Qed.

(** C6: in a conversion whose image decodes, the canvas is filled with
    white over the whole image, before the image is drawn at (0,0), when the
    format is jpeg; for any other format the image is drawn at (0,0) and
    nothing is filled. *)
Theorem conversion_prefill_iff_jpeg (s : Converter) (host : Host) (f : File)
    (format url : string) (w h : Z) :
  page_ok s → currentFile s = Some f →
  selected_format s = Some format → format ≠ "" →
  read_result host = Some url → decoded_size host = Some (w, h) →
  ∃ t, trace (state_after (conversion host) s) = (trace s ++ t)%list
       ∧ (format = "jpeg" →
          drawing_of t = [EvFillRect "white" 0 0 w h; EvDrawImage 0 0])
       ∧ (format ≠ "jpeg" → drawing_of t = [EvDrawImage 0 0]).
Proof.
  intros Hpage Hfile Hsel Hne Hread Hdec.
  destruct (runs_conversion s host f format url w h) as [q Hrun]; [done..|].
  apply runs_completes in Hrun as (_ & Htrace & _).
  eexists. split; [exact Htrace|]. split.
  - by intros ->.
  - intros Hfmt. apply String.eqb_neq in Hfmt. by rewrite Hfmt.
Qed.

Lemma conversion_prefill_iff_jpeg_witness :
  ∃ t, trace (state_after (conversion host_ok) page_jpeg)
       = (trace page_jpeg ++ t)%list
       ∧ ("jpeg" = "jpeg" →
          drawing_of t = [EvFillRect "white" 0 0 100 100; EvDrawImage 0 0])
       ∧ ("jpeg" ≠ "jpeg" → drawing_of t = [EvDrawImage 0 0]).
Proof.
  apply (conversion_prefill_iff_jpeg page_jpeg host_ok
           photo_png "jpeg" "data:image/png;base64,iVBORw0KGgo=" 100 100);
    (reflexivity || discriminate).
Defined.

(** ** The listeners and the failed decode *)

Lemma runs_clearError (s : Converter) : page_ok s → runs clearError s tt [].
Proof. intros Hpage. page_elements Hpage. runs_from clearError_run. Qed.

(** Through the file input's listener too, a refused file leaves the
    selected one in place. *)
Lemma on_fileInput_change_reject_keeps_file (s : Converter) (f : File) :
  page_ok s →
  String.prefix "image/" (type f) = false ∨ 10 * 1024 * 1024 < size f →
  completes (on_fileInput_change (Some f)) s = true
  ∧ currentFile (state_after (on_fileInput_change (Some f)) s) = currentFile s.
Proof.
  intros Hpage Hrej.
  assert (runs (on_fileInput_change (Some f)) s tt [EvFocus "errorMessage"])
    as Hrun.
  { unfold on_fileInput_change.
    eapply runs_eq.
    - eapply runs_bind; [done | by apply runs_clearError | intros s1 Hp1 Hf1].
      unfold handleFileSelect.
      destruct (String.prefix "image/" (type f)); cbn [negb]; [|run_step].
      destruct Hrej as [|Hsize]; [done|].
      apply Z.ltb_lt in Hsize as ->. run_step.
    - reflexivity. }
  apply runs_completes in Hrun as (? & _ & ?). done.
Qed.

(** When the image does not decode, the progress stays at 20 and nothing
    is drawn or encoded. *)
Lemma conversion_decode_failure (s : Converter) (host : Host) (f : File)
    (format url : string) :
  page_ok s → currentFile s = Some f →
  selected_format s = Some format → format ≠ "" →
  read_result host = Some url → decoded_size host = None →
  completes (conversion host) s = true
  ∧ trace (state_after (conversion host) s)
    = (trace s ++ [EvProgress 20 "Loading image...";
                   EvReadAsDataURL ConvertReader f;
                   EvImgSrc url;
                   EvFocus "errorMessage"])%list.
Proof.
  intros Hpage Hfile Hsel Hne Hread Hdec.
  destruct (runs_convertImage s f format Hpage Hfile Hsel Hne) as [q Hconv].
  assert (runs (conversion host) s tt
            [EvProgress 20 "Loading image..."; EvReadAsDataURL ConvertReader f;
             EvImgSrc url; EvFocus "errorMessage"]) as Hrun.
  { unfold conversion. rewrite Hread, Hdec.
    eapply runs_eq.
    - eapply runs_bind; [done | exact Hconv | intros s1 Hp1 Hf1].
      eapply runs_bind; [done | apply runs_emit | intros s2 Hp2 Hf2].
      by apply runs_img_onerror.
    - reflexivity. }
  apply runs_completes in Hrun as (? & ? & _). done.
Qed.

(** ** Further properties of the script *)

(** *** The download name *)

Lemma strip_all_name_chars (s : string) :
  all_name_chars (Str.strip_non_name_chars s) = true.
Proof.
  induction s as [|c r IH]; simpl; [done|].
  destruct (Str.is_name_char c) eqn:Hc; [|done].
  simpl. by rewrite Hc, IH.
Qed.

Lemma strip_clean (s : string) :
  all_name_chars s = true → Str.strip_non_name_chars s = s.
Proof.
  induction s as [|c r IH]; simpl; [done|].
  intros [Hc Hr]%andb_true_iff. by rewrite Hc, (IH Hr).
Qed.

(** X1: whatever the file's name, the download name is the name without
    the characters outside [A-Za-z0-9_-], followed by "_converted." and the
    format: the stem holds no dot (nor any other character outside the
    class), and nothing is cut from it. *)
Theorem download_fileName_stem (name format : string) :
  download_fileName name format
  = Str.strip_non_name_chars name +:+ "_converted." +:+ format
  ∧ all_name_chars (Str.strip_non_name_chars name) = true
  ∧ Str.has_char "." (Str.strip_non_name_chars name) = false.
Proof.
  split; [apply download_fileName_keeps_extension|].
  split; [apply strip_all_name_chars | apply strip_has_no_dot].
Qed.

(** X2: a name made of characters of the class only is kept whole as the
    stem of the download name. *)
Theorem download_fileName_clean_name (name format : string) :
  all_name_chars name = true →
  download_fileName name format = name +:+ "_converted." +:+ format.
Proof.
  intros Hclean.
  by rewrite download_fileName_keeps_extension, (strip_clean _ Hclean).
Qed.

Lemma download_fileName_clean_name_witness :
  download_fileName "IMG_2024-01" "png" = "IMG_2024-01_converted.png".
Proof. apply (download_fileName_clean_name "IMG_2024-01" "png"). reflexivity. Defined.

(** *** Selecting a file *)

Ltac observe_property :=
  unfold has_class, property; observe.

Lemma handleFileSelect_accept_run (s : Converter) (f : File) :
  present "formatSection" s → present "errorSection" s →
  String.prefix "image/" (type f) = true → size f ≤ 10 * 1024 * 1024 →
  handleFileSelect (Some f) s
  = (inr tt,
     {| currentFile := Some f;
        document :=
          alter (classList_add "hidden") "errorSection"
            (alter (classList_remove "hidden") "formatSection" (document s));
        trace := trace s ++ [EvReadAsDataURL PreviewReader f] |}).
Proof.
  intros Hfs Hes Htype Hsize. unfold handleFileSelect.
  rewrite Htype. cbn [negb].
  assert ((10 * 1024 * 1024 <? size f) = false) as -> by by apply Z.ltb_ge.
  erewrite bind_inr by reflexivity.
  unfold showImagePreview. erewrite bind_inr by apply emit_run.
  run_with showElement_run. run_with hideElement_run.
Qed.

(** X3: a file whose type starts with "image/" and whose size is at most
    10 MiB (the limit included) becomes the current file, whatever file was
    selected before; the format section is shown, the error section hidden,
    and the file is handed to the reader of the preview. *)
Theorem handleFileSelect_accepts (s : Converter) (f : File) :
  page_ok s →
  String.prefix "image/" (type f) = true → size f ≤ 10 * 1024 * 1024 →
  completes (handleFileSelect (Some f)) s = true
  ∧ currentFile (state_after (handleFileSelect (Some f)) s) = Some f
  ∧ hidden "formatSection" (state_after (handleFileSelect (Some f)) s)
    = Some false
  ∧ hidden "errorSection" (state_after (handleFileSelect (Some f)) s)
    = Some true
  ∧ trace (state_after (handleFileSelect (Some f)) s)
    = (trace s ++ [EvReadAsDataURL PreviewReader f])%list.
Proof.
  intros Hpage Htype Hsize. page_elements Hpage.
  unfold completes, state_after.
  rewrite handleFileSelect_accept_run by done. cbn [fst snd].
  split; [done|]. split; [done|]. split; [observe|]. split; [observe|done].
Qed.

Lemma handleFileSelect_accepts_witness :
  completes (handleFileSelect (Some limit_png)) page_webp = true
  ∧ currentFile (state_after (handleFileSelect (Some limit_png)) page_webp)
    = Some limit_png
  ∧ hidden "formatSection" (state_after (handleFileSelect (Some limit_png)) page_webp)
    = Some false
  ∧ hidden "errorSection" (state_after (handleFileSelect (Some limit_png)) page_webp)
    = Some true
  ∧ trace (state_after (handleFileSelect (Some limit_png)) page_webp)
    = (trace page_webp ++ [EvReadAsDataURL PreviewReader limit_png])%list.
Proof.
  apply (handleFileSelect_accepts page_webp limit_png).
  - reflexivity.
  - reflexivity.
  - discriminate.
Defined.

Lemma on_fileInput_change_accept_run (s : Converter) (f : File) :
  page_ok s →
  String.prefix "image/" (type f) = true → size f ≤ 10 * 1024 * 1024 →
  on_fileInput_change (Some f) s
  = (inr tt,
     {| currentFile := Some f;
        document :=
          alter (classList_add "hidden") "errorSection"
            (alter (classList_remove "hidden") "formatSection"
               (alter (classList_add "hidden") "errorSection"
                  (alter (set_textContent "") "errorMessage" (document s))));
        trace := trace s ++ [EvReadAsDataURL PreviewReader f] |}).
Proof.
  intros Hpage Htype Hsize. page_elements Hpage. unfold on_fileInput_change.
  run_with clearError_run.
  rewrite handleFileSelect_accept_run by (done || present). reflexivity.
Qed.

(** X4: when the file input changes to an acceptable file, the text of
    the last error is erased and its section hidden, and the file becomes the
    current one. *)
Theorem on_fileInput_change_accepts (s : Converter) (f : File) :
  page_ok s →
  String.prefix "image/" (type f) = true → size f ≤ 10 * 1024 * 1024 →
  completes (on_fileInput_change (Some f)) s = true
  ∧ currentFile (state_after (on_fileInput_change (Some f)) s) = Some f
  ∧ errorMessage (state_after (on_fileInput_change (Some f)) s) = Some ""
  ∧ hidden "errorSection" (state_after (on_fileInput_change (Some f)) s)
    = Some true
  ∧ hidden "formatSection" (state_after (on_fileInput_change (Some f)) s)
    = Some false.
Proof.
  intros Hpage Htype Hsize. page_elements Hpage.
  unfold completes, state_after.
  rewrite on_fileInput_change_accept_run by done. cbn [fst snd].
  split; [done|]. split; [done|]. repeat split; observe.
Qed.

Lemma on_fileInput_change_accepts_witness :
  completes (on_fileInput_change (Some photo_png)) page_empty = true
  ∧ currentFile (state_after (on_fileInput_change (Some photo_png)) page_empty)
    = Some photo_png
  ∧ errorMessage (state_after (on_fileInput_change (Some photo_png)) page_empty)
    = Some ""
  ∧ hidden "errorSection"
      (state_after (on_fileInput_change (Some photo_png)) page_empty)
    = Some true
  ∧ hidden "formatSection"
      (state_after (on_fileInput_change (Some photo_png)) page_empty)
    = Some false.
Proof.
  apply (on_fileInput_change_accepts page_empty photo_png).
  - reflexivity.
  - reflexivity.
  - discriminate.
Defined.

Lemma on_fileInput_change_none_run (s : Converter) :
  page_ok s →
  on_fileInput_change None s
  = (inr tt,
     {| currentFile := currentFile s;
        document :=
          alter (classList_remove "hidden") "errorSection"
            (alter (set_textContent msg_invalid_file) "errorMessage"
               (alter (classList_add "hidden") "errorSection"
                  (alter (set_textContent "") "errorMessage" (document s))));
        trace := trace s ++ [EvFocus "errorMessage"] |}).
Proof.
  intros Hpage. page_elements Hpage. unfold on_fileInput_change.
  run_with clearError_run. unfold handleFileSelect.
  run_with showError_run.
Qed.

(** X5: when the file input changes to no file at all (the dialog was
    dismissed), the invalid-file error is put on display and the current file
    stays. *)
Theorem on_fileInput_change_no_file (s : Converter) :
  page_ok s →
  completes (on_fileInput_change None) s = true
  ∧ shows_error msg_invalid_file (state_after (on_fileInput_change None) s)
  ∧ currentFile (state_after (on_fileInput_change None) s) = currentFile s.
Proof.
  intros Hpage. page_elements Hpage.
  unfold completes, state_after, shows_error.
  rewrite on_fileInput_change_none_run by done. cbn [fst snd].
  repeat split; observe.
Qed.

Lemma on_fileInput_change_no_file_witness :
  completes (on_fileInput_change None) page_webp = true
  ∧ shows_error msg_invalid_file (state_after (on_fileInput_change None) page_webp)
  ∧ currentFile (state_after (on_fileInput_change None) page_webp)
    = Some photo_png.
Proof. apply (on_fileInput_change_no_file page_webp). reflexivity. Defined.

(** *** Dropping a file *)

Lemma uploadArea_drop_refused_run (s : Converter) (file : option File) :
  page_ok s → present "uploadArea" s → not_image file = true →
  uploadArea_drop file s
  = (inr tt,
     {| currentFile := currentFile s;
        document :=
          alter (classList_remove "hidden") "errorSection"
            (alter (set_textContent msg_invalid_drop) "errorMessage"
               (alter (classList_remove "drag-over") "uploadArea"
                  (document s)));
        trace := trace s ++ [EvFocus "errorMessage"] |}).
Proof.
  intros Hpage Hup Hfile. page_elements Hpage. unfold uploadArea_drop.
  run_with update_run.
  assert (on_drop file = showError msg_invalid_drop) as ->.
  { unfold on_drop. destruct file as [f|]; [|done]. cbn in Hfile.
    by destruct (String.prefix "image/" (type f)). }
  run_with showError_run.
Qed.

(** X6: a drop without a file, or of a file whose type does not start
    with "image/", takes the highlight off the drop area, puts the drop
    error on display (not the message of the file input) and leaves the
    current file in place. *)
Theorem uploadArea_drop_refuses (s : Converter) (file : option File) :
  page_ok s → present "uploadArea" s → not_image file = true →
  completes (uploadArea_drop file) s = true
  ∧ shows_error msg_invalid_drop (state_after (uploadArea_drop file) s)
  ∧ has_class "drag-over" "uploadArea" (state_after (uploadArea_drop file) s)
    = Some false
  ∧ currentFile (state_after (uploadArea_drop file) s) = currentFile s.
Proof.
  intros Hpage Hup Hfile. page_elements Hpage.
  unfold completes, state_after, shows_error.
  rewrite uploadArea_drop_refused_run by done. cbn [fst snd].
  repeat split; observe_property.
Qed.

Lemma uploadArea_drop_refuses_witness :
  completes (uploadArea_drop (Some huge_text)) (full_page (Some photo_png) "webp" false)
  = true
  ∧ shows_error msg_invalid_drop
      (state_after (uploadArea_drop (Some huge_text))
         (full_page (Some photo_png) "webp" false))
  ∧ has_class "drag-over" "uploadArea"
      (state_after (uploadArea_drop (Some huge_text))
         (full_page (Some photo_png) "webp" false))
    = Some false
  ∧ currentFile
      (state_after (uploadArea_drop (Some huge_text))
         (full_page (Some photo_png) "webp" false))
    = Some photo_png.
Proof.
  apply (uploadArea_drop_refuses (full_page (Some photo_png) "webp" false)
           (Some huge_text)).
  - reflexivity.
  - vm_compute. eexists. reflexivity.
  - reflexivity.
Defined.

(** *** The download link *)

Lemma bind_currentFile {B} (k : option File → M B) (s : Converter) :
  (this_currentFile ≫= k) s = k (currentFile s) s.
Proof. reflexivity. Qed.

Lemma showDownload_run (s : Converter) (f : File) (dataUrl format : string) :
  page_ok s → currentFile s = Some f →
  showDownload dataUrl format s
  = (inr tt,
     set_document
       (alter (classList_remove "hidden") "downloadSection"
          (alter (classList_remove "processing") "convertBtn"
             (alter (set_disabled false) "convertBtn"
                (alter (classList_add "hidden") "progressSection"
                   (alter (set_textContent
                             ("File: " +:+ download_fileName (name f) format))
                      "downloadInfo"
                      (alter (set_download (download_fileName (name f) format))
                         "downloadLink"
                         (alter (set_href dataUrl) "downloadLink"
                            (document s)))))))) s).
Proof.
  intros Hpage Hfile. page_elements Hpage. unfold showDownload.
  rewrite bind_currentFile, Hfile.
  run_with update_run. run_with update_run. run_with update_run.
  run_with hideProgress_run. run_with showElement_run.
Qed.

(** X7: with a file selected, [showDownload] points the download link to
    the data URL under the derived file name, writes the name in the download
    information, shows the download section, hides the progress section and
    gives the convert button back (enabled, no longer processing). *)
Theorem showDownload_offers_file (s : Converter) (f : File)
    (dataUrl format : string) :
  page_ok s → currentFile s = Some f →
  completes (showDownload dataUrl format) s = true
  ∧ property href "downloadLink" (state_after (showDownload dataUrl format) s)
    = Some dataUrl
  ∧ property download "downloadLink" (state_after (showDownload dataUrl format) s)
    = Some (download_fileName (name f) format)
  ∧ property textContent "downloadInfo"
      (state_after (showDownload dataUrl format) s)
    = Some ("File: " +:+ download_fileName (name f) format)
  ∧ hidden "downloadSection" (state_after (showDownload dataUrl format) s)
    = Some false
  ∧ hidden "progressSection" (state_after (showDownload dataUrl format) s)
    = Some true
  ∧ property disabled "convertBtn" (state_after (showDownload dataUrl format) s)
    = Some false
  ∧ has_class "processing" "convertBtn"
      (state_after (showDownload dataUrl format) s)
    = Some false.
Proof.
  intros Hpage Hfile. page_elements Hpage.
  unfold completes, state_after.
  rewrite (showDownload_run _ f) by done. cbn [fst snd].
  split; [done|]. repeat split; observe_property.
Qed.

Lemma showDownload_offers_file_witness :
  property download "downloadLink"
    (state_after (showDownload "data:image/webp;base64,UklGRg==" "webp") page_webp)
  = Some "myphotopng_converted.webp".
Proof.
  destruct (showDownload_offers_file page_webp photo_png
              "data:image/webp;base64,UklGRg==" "webp")
    as (_ & _ & Hname & _); [reflexivity | reflexivity |].
  exact Hname.
Defined.

(** *** The start of a conversion *)

Lemma try_catch_inr {A} (body : M A) (handler : Exn → M A) (s s' : Converter)
    (a : A) :
  body s = (inr a, s') → try_catch body handler s = (inr a, s').
Proof. unfold try_catch. by intros ->. Qed.

Lemma try_catch_inl {A} (body : M A) (handler : Exn → M A) (s s' : Converter)
    (e : Exn) :
  body s = (inl e, s') → try_catch body handler s = handler e s'.
Proof. unfold try_catch. by intros ->. Qed.

Lemma bind_inl {A B} (m : M A) (k : A → M B) (s s' : Converter) (e : Exn) :
  m s = (inl e, s') → (m ≫= k) s = (inl e, s').
Proof. unfold mbind, M_bind. by intros ->. Qed.

Lemma update_missing (id : string) (f : Element → Element) (s : Converter) :
  document s !! id = None → update id f s = (inl (TypeError id), s).
Proof. unfold update. by intros ->. Qed.

Lemma pretty_20_percent : pretty 20 +:+ "%" = "20%".
Proof. reflexivity. Qed.

Lemma convertImage_run (s : Converter) (f : File) (format quality : string) :
  page_ok s → currentFile s = Some f →
  selected_format s = Some format → format ≠ "" →
  property value "qualitySlider" s = Some quality →
  convertImage s
  = (inr (Some {| job_format := format; job_quality := Div100 quality;
                  job_canvas := createCanvas |}),
     {| currentFile := currentFile s;
        document :=
          alter (set_textContent "Loading image...") "progressText"
            (alter (set_style_width "20%") "progressBar"
               (alter (classList_add "processing") "convertBtn"
                  (alter (set_disabled true) "convertBtn"
                     (alter (classList_remove "hidden") "progressSection"
                        (document s)))));
        trace := trace s ++ [EvProgress 20 "Loading image...";
                             EvReadAsDataURL ConvertReader f] |}).
Proof.
  intros Hpage Hfile (e & He & Hv)%selected_format_element Hne Hq.
  page_elements Hpage. unfold property in Hq.
  destruct (document s !! "qualitySlider") as [q|] eqn:Hslider; [|done].
  injection Hq as Hq. unfold convertImage.
  rewrite (bind_inr _ _ _ _ _ (element_run _ _ _ He)).
  rewrite (bind_inr _ _ _ _ _ (element_run _ _ _ Hslider)).
  rewrite bind_currentFile, Hfile, Hv, Hq, eqb_empty_false by done.
  etransitivity.
  - apply try_catch_inr.
    run_with showProgress_run.
    run_with updateProgress_run.
    erewrite bind_inr by apply emit_run. reflexivity.
  - cbn [currentFile document trace set_document].
    by rewrite pretty_20_percent, <- app_assoc, Hfile.
Qed.

(** X8: a conversion that starts (a file is selected, the format is not
    empty) disables the convert button and marks it as processing, shows the
    progress section at 20% with the text "Loading image...", and asks for the
    current file to be read; the job keeps the format and the slider's value
    over 100 as its quality. *)
Theorem convertImage_starts (s : Converter) (f : File) (format quality : string) :
  page_ok s → currentFile s = Some f →
  selected_format s = Some format → format ≠ "" →
  property value "qualitySlider" s = Some quality →
  (convertImage s).1
  = inr (Some {| job_format := format; job_quality := Div100 quality;
                 job_canvas := createCanvas |})
  ∧ property disabled "convertBtn" (state_after convertImage s) = Some true
  ∧ has_class "processing" "convertBtn" (state_after convertImage s) = Some true
  ∧ hidden "progressSection" (state_after convertImage s) = Some false
  ∧ property style_width "progressBar" (state_after convertImage s) = Some "20%"
  ∧ property textContent "progressText" (state_after convertImage s)
    = Some "Loading image..."
  ∧ trace (state_after convertImage s)
    = (trace s ++ [EvProgress 20 "Loading image...";
                   EvReadAsDataURL ConvertReader f])%list.
Proof.
  intros Hpage Hfile Hsel Hne Hq. page_elements Hpage.
  unfold state_after.
  rewrite (convertImage_run _ f format quality) by done. cbn [fst snd].
  split; [done|]. repeat split; observe_property.
Qed.

Lemma convertImage_starts_witness :
  property disabled "convertBtn" (state_after convertImage page_webp) = Some true
  ∧ property style_width "progressBar" (state_after convertImage page_webp)
    = Some "20%".
Proof.
  destruct (convertImage_starts page_webp photo_png "webp" "80")
    as (_ & Hdisabled & _ & _ & Hwidth & _);
    [reflexivity | reflexivity | reflexivity | discriminate | reflexivity |].
  split; [exact Hdisabled | exact Hwidth].
Defined.

(** *** The [catch] of [convertImage] *)

Lemma convertImage_catch_run (s : Converter) (f : File) (format : string) :
  has_elements ["formatSelect"; "qualitySlider"; "convertBtn"; "errorSection";
                "errorMessage"; "progressSection"] s = true →
  document s !! "progressBar" = None →
  currentFile s = Some f → selected_format s = Some format → format ≠ "" →
  convertImage s
  = (inr None,
     {| currentFile := currentFile s;
        document :=
          alter (classList_remove "processing") "convertBtn"
            (alter (set_disabled false) "convertBtn"
               (alter (classList_add "hidden") "progressSection"
                  (alter (classList_remove "hidden") "errorSection"
                     (alter (set_textContent msg_conversion_failed)
                        "errorMessage"
                        (alter (classList_add "processing") "convertBtn"
                           (alter (set_disabled true) "convertBtn"
                              (alter (classList_remove "hidden")
                                 "progressSection" (document s))))))));
        trace := trace s ++ [EvFocus "errorMessage"] |}).
Proof.
  intros Hels Hmissing Hfile (e & He & Hv)%selected_format_element Hne.
  assert (∀ id, id ∈ ["formatSelect"; "qualitySlider"; "convertBtn";
                      "errorSection"; "errorMessage"; "progressSection"] →
                present id s) as Hin
    by (intros id; apply has_elements_present, Hels).
  assert (present "qualitySlider" s) as [q Hq]
    by (apply Hin, list_elem_of_In; simpl; tauto).
  assert (present "convertBtn" s)
    by (apply Hin, list_elem_of_In; simpl; tauto).
  assert (present "errorSection" s)
    by (apply Hin, list_elem_of_In; simpl; tauto).
  assert (present "errorMessage" s)
    by (apply Hin, list_elem_of_In; simpl; tauto).
  assert (present "progressSection" s)
    by (apply Hin, list_elem_of_In; simpl; tauto).
  clear Hin. unfold convertImage.
  rewrite (bind_inr _ _ _ _ _ (element_run _ _ _ He)).
  rewrite (bind_inr _ _ _ _ _ (element_run _ _ _ Hq)).
  rewrite bind_currentFile, Hfile, Hv, eqb_empty_false by done.
  erewrite try_catch_inl; cycle 1.
  - run_with showProgress_run. apply bind_inl. unfold updateProgress.
    apply bind_inl, update_missing.
    cbn [document set_document]. by rewrite !lookup_alter_ne by done.
  - run_with showError_run. run_with hideProgress_run.
    cbn [currentFile document trace set_document]. by rewrite Hfile.
Qed.

(** X9: when the page has no progress bar, the conversion that starts is
    caught by the [catch] of [convertImage]: the call returns normally, the
    conversion-failed error is on display, the convert button is enabled again
    and the progress section hidden, and the file is never handed to a
    reader. *)
Theorem convertImage_catches_missing_progressBar (s : Converter) (f : File)
    (format : string) :
  has_elements ["formatSelect"; "qualitySlider"; "convertBtn"; "errorSection";
                "errorMessage"; "progressSection"] s = true →
  document s !! "progressBar" = None →
  currentFile s = Some f → selected_format s = Some format → format ≠ "" →
  (convertImage s).1 = inr None
  ∧ shows_error msg_conversion_failed (state_after convertImage s)
  ∧ property disabled "convertBtn" (state_after convertImage s) = Some false
  ∧ has_class "processing" "convertBtn" (state_after convertImage s) = Some false
  ∧ hidden "progressSection" (state_after convertImage s) = Some true
  ∧ trace (state_after convertImage s)
    = (trace s ++ [EvFocus "errorMessage"])%list.
Proof.
  intros Hels Hmissing Hfile Hsel Hne.
  assert (∀ id, id ∈ ["formatSelect"; "qualitySlider"; "convertBtn";
                      "errorSection"; "errorMessage"; "progressSection"] →
                present id s) as Hin
    by (intros id; apply has_elements_present, Hels).
  assert (present "convertBtn" s)
    by (apply Hin, list_elem_of_In; simpl; tauto).
  assert (present "errorSection" s)
    by (apply Hin, list_elem_of_In; simpl; tauto).
  assert (present "errorMessage" s)
    by (apply Hin, list_elem_of_In; simpl; tauto).
  assert (present "progressSection" s)
    by (apply Hin, list_elem_of_In; simpl; tauto).
  clear Hin. unfold state_after, shows_error.
  rewrite (convertImage_catch_run _ f format) by done. cbn [fst snd].
  split; [done|]. repeat split; observe_property.
Qed.

Lemma convertImage_catches_missing_progressBar_witness :
  (convertImage page_without_progressBar).1 = inr None
  ∧ shows_error msg_conversion_failed
      (state_after convertImage page_without_progressBar)
  ∧ property disabled "convertBtn"
      (state_after convertImage page_without_progressBar) = Some false
  ∧ has_class "processing" "convertBtn"
      (state_after convertImage page_without_progressBar) = Some false
  ∧ hidden "progressSection"
      (state_after convertImage page_without_progressBar) = Some true
  ∧ trace (state_after convertImage page_without_progressBar)
    = (trace page_without_progressBar ++ [EvFocus "errorMessage"])%list.
Proof.
  apply (convertImage_catches_missing_progressBar page_without_progressBar
           photo_png "webp").
  - reflexivity.
  - reflexivity.
  - reflexivity.
  - reflexivity.
  - discriminate.
Defined.

(** *** A whole conversion: what is left on the page *)

Lemma runs_convertImage_quality (s : Converter) (f : File)
    (format quality : string) :
  page_ok s → currentFile s = Some f →
  selected_format s = Some format → format ≠ "" →
  property value "qualitySlider" s = Some quality →
  runs convertImage s
    (Some {| job_format := format; job_quality := Div100 quality;
             job_canvas := createCanvas |})
    [EvProgress 20 "Loading image..."; EvReadAsDataURL ConvertReader f].
Proof.
  intros Hpage Hfile Hsel Hne Hq.
  eexists. split; [by apply (convertImage_run s f format quality)|].
  split; [done|]. split; [done|].
  intros id. unfold present. cbn [document].
  by rewrite !lookup_alter_is_Some.
Qed.

(** A conversion that succeeds ends with [showDownload], run on a page
    that still has its elements and its file. *)
Lemma conversion_ends_in_showDownload (s : Converter) (host : Host) (f : File)
    (format quality url : string) (w h : Z) :
  page_ok s → currentFile s = Some f →
  selected_format s = Some format → format ≠ "" →
  property value "qualitySlider" s = Some quality →
  read_result host = Some url → decoded_size host = Some (w, h) →
  ∃ s3, page_ok s3 ∧ currentFile s3 = Some f
        ∧ trace s3
          = (trace s
             ++ [EvProgress 20 "Loading image...";
                 EvReadAsDataURL ConvertReader f;
                 EvImgSrc url;
                 EvProgress 50 "Processing image..."]
             ++ (if String.eqb format "jpeg"
                 then [EvFillRect "white" 0 0 w h] else [])
             ++ [EvDrawImage 0 0;
                 EvProgress 80 "Converting format...";
                 EvToDataURL ("image/" +:+ format) (Div100 quality);
                 EvProgress 100 "Complete!";
                 EvSetTimeout 500])%list
        ∧ conversion host s = showDownload (encoded_url host) format s3.
Proof.
  intros Hpage Hfile Hsel Hne Hq Hread Hdec.
  destruct (runs_convertImage_quality s f format quality)
    as (s1 & Hm1 & Hf1 & Ht1 & Hid1); [done..|].
  pose proof (page_ok_same_elements _ _ Hid1 Hpage) as Hp1.
  destruct (runs_emit (EvImgSrc url) s1) as (s2 & Hm2 & Hf2 & Ht2 & Hid2).
  pose proof (page_ok_same_elements _ _ Hid2 Hp1) as Hp2.
  destruct (runs_img_onload s2
              {| job_format := format; job_quality := Div100 quality;
                 job_canvas := createCanvas |} w h (encoded_url host) Hp2)
    as (s3 & Hm3 & Hf3 & Ht3 & Hid3).
  exists s3. split; [by apply (page_ok_same_elements _ _ Hid3)|].
  split; [congruence|]. split.
  - rewrite Ht3, Ht2, Ht1. cbn [job_format job_quality].
    rewrite <- !app_assoc.
    destruct (String.eqb format "jpeg") eqn:Hjpeg; [|done].
    by apply String.eqb_eq in Hjpeg as ->.
  - unfold conversion. rewrite (bind_inr _ _ _ _ _ Hm1), Hread, Hdec.
    unfold reader_onload. rewrite (bind_inr _ _ _ _ _ Hm2).
    by rewrite (bind_inr _ _ _ _ _ Hm3).
Qed.

(** X10: after a conversion that succeeds, the download link carries the
    encoded data URL under the name derived from the current file and the
    format, the download section is shown, the progress section is hidden,
    the convert button is enabled again, and the file is still selected. *)
Theorem conversion_offers_download (s : Converter) (host : Host) (f : File)
    (format quality url : string) (w h : Z) :
  page_ok s → currentFile s = Some f →
  selected_format s = Some format → format ≠ "" →
  property value "qualitySlider" s = Some quality →
  read_result host = Some url → decoded_size host = Some (w, h) →
  completes (conversion host) s = true
  ∧ property href "downloadLink" (state_after (conversion host) s)
    = Some (encoded_url host)
  ∧ property download "downloadLink" (state_after (conversion host) s)
    = Some (download_fileName (name f) format)
  ∧ hidden "downloadSection" (state_after (conversion host) s) = Some false
  ∧ hidden "progressSection" (state_after (conversion host) s) = Some true
  ∧ property disabled "convertBtn" (state_after (conversion host) s)
    = Some false
  ∧ has_class "processing" "convertBtn" (state_after (conversion host) s)
    = Some false
  ∧ currentFile (state_after (conversion host) s) = Some f.
Proof.
  intros Hpage Hfile Hsel Hne Hq Hread Hdec.
  destruct (conversion_ends_in_showDownload s host f format quality url w h)
    as (s3 & Hp3 & Hf3 & _ & Hconv); [done..|].
  page_elements Hp3. unfold completes, state_after.
  rewrite Hconv, (showDownload_run _ f) by done. cbn [fst snd].
  split; [done|]. repeat split; (observe_property || done).
Qed.

Lemma conversion_offers_download_witness :
  property download "downloadLink" (state_after (conversion host_ok) page_jpeg)
  = Some "myphotopng_converted.jpeg"
  ∧ property disabled "convertBtn" (state_after (conversion host_ok) page_jpeg)
    = Some false.
Proof.
  destruct (conversion_offers_download page_jpeg host_ok photo_png "jpeg" "80"
              "data:image/png;base64,iVBORw0KGgo=" 100 100)
    as (_ & _ & Hname & _ & _ & Hdisabled & _);
    [reflexivity | reflexivity | reflexivity | discriminate
    | reflexivity | reflexivity | reflexivity |].
  split; [exact Hname | exact Hdisabled].
Defined.

(** X11: in a conversion that succeeds the canvas is encoded once, as
    "image/" followed by the format, with the slider's value over 100 as
    quality, for every format: the quality is passed for the formats without
    a quality setting as well, and a format the browser cannot encode is
    requested all the same. *)
Theorem conversion_encoder_request (s : Converter) (host : Host) (f : File)
    (format quality url : string) (w h : Z) :
  page_ok s → currentFile s = Some f →
  selected_format s = Some format → format ≠ "" →
  property value "qualitySlider" s = Some quality →
  read_result host = Some url → decoded_size host = Some (w, h) →
  ∃ before after,
    trace (state_after (conversion host) s)
    = (trace s ++ before
       ++ [EvToDataURL ("image/" +:+ format) (Div100 quality)] ++ after)%list
    ∧ Forall (λ ev, ∀ m q, ev ≠ EvToDataURL m q) (before ++ after).
Proof.
  intros Hpage Hfile Hsel Hne Hq Hread Hdec.
  destruct (conversion_ends_in_showDownload s host f format quality url w h)
    as (s3 & Hp3 & Hf3 & Ht3 & Hconv); [done..|].
  page_elements Hp3. unfold state_after.
  rewrite Hconv, (showDownload_run _ f) by done. cbn [fst snd trace set_document].
  exists ([EvProgress 20 "Loading image..."; EvReadAsDataURL ConvertReader f;
           EvImgSrc url; EvProgress 50 "Processing image..."]
          ++ (if String.eqb format "jpeg"
              then [EvFillRect "white" 0 0 w h] else [])
          ++ [EvDrawImage 0 0; EvProgress 80 "Converting format..."])%list,
         [EvProgress 100 "Complete!"; EvSetTimeout 500].
  split.
  - rewrite Ht3. by rewrite <- !app_assoc.
  - destruct (String.eqb format "jpeg"); cbn [app];
      repeat first [ apply List.Forall_nil
                   | apply List.Forall_cons; [intros ? ?; discriminate|] ].
Qed.

Lemma conversion_encoder_request_witness :
  ∃ before after,
    trace (state_after (conversion host_ok) page_raw)
    = (trace page_raw ++ before
       ++ [EvToDataURL ("image/" +:+ "raw") (Div100 "80")] ++ after)%list
    ∧ Forall (λ ev, ∀ m q, ev ≠ EvToDataURL m q) (before ++ after).
Proof.
  apply (conversion_encoder_request page_raw host_ok photo_png "raw" "80"
           "data:image/png;base64,iVBORw0KGgo=" 100 100);
    (reflexivity || discriminate).
Defined.

Lemma img_onerror_run (s : Converter) :
  page_ok s →
  img_onerror s
  = (inr tt,
     {| currentFile := currentFile s;
        document :=
          alter (classList_remove "processing") "convertBtn"
            (alter (set_disabled false) "convertBtn"
               (alter (classList_add "hidden") "progressSection"
                  (alter (classList_remove "hidden") "errorSection"
                     (alter (set_textContent msg_load_failed) "errorMessage"
                        (document s)))));
        trace := trace s ++ [EvFocus "errorMessage"] |}).
Proof.
  intros Hpage. page_elements Hpage. unfold img_onerror.
  run_with showError_run. run_with hideProgress_run.
Qed.

Lemma conversion_ends_in_onerror (s : Converter) (host : Host) (f : File)
    (format url : string) :
  page_ok s → currentFile s = Some f →
  selected_format s = Some format → format ≠ "" →
  read_result host = Some url → decoded_size host = None →
  ∃ s2, page_ok s2 ∧ currentFile s2 = Some f
        ∧ trace s2 = (trace s ++ [EvProgress 20 "Loading image...";
                                  EvReadAsDataURL ConvertReader f;
                                  EvImgSrc url])%list
        ∧ conversion host s = img_onerror s2.
Proof.
  intros Hpage Hfile Hsel Hne Hread Hdec.
  destruct (runs_convertImage s f format Hpage Hfile Hsel Hne)
    as (q & s1 & Hm1 & Hf1 & Ht1 & Hid1).
  pose proof (page_ok_same_elements _ _ Hid1 Hpage) as Hp1.
  destruct (runs_emit (EvImgSrc url) s1) as (s2 & Hm2 & Hf2 & Ht2 & Hid2).
  exists s2. split; [by apply (page_ok_same_elements _ _ Hid2)|].
  split; [congruence|]. split.
  - by rewrite Ht2, Ht1, <- app_assoc.
  - unfold conversion. rewrite (bind_inr _ _ _ _ _ Hm1), Hread, Hdec.
    unfold reader_onload. by rewrite (bind_inr _ _ _ _ _ Hm2).
Qed.

(** X12: when the image does not decode, the conversion ends with the
    load-failed error on display, the progress section hidden and the convert
    button enabled again, so that the user can retry; the file stays
    selected, and nothing was drawn or encoded. *)
Theorem conversion_decode_failure_recovers (s : Converter) (host : Host)
    (f : File) (format url : string) :
  page_ok s → currentFile s = Some f →
  selected_format s = Some format → format ≠ "" →
  read_result host = Some url → decoded_size host = None →
  completes (conversion host) s = true
  ∧ shows_error msg_load_failed (state_after (conversion host) s)
  ∧ hidden "progressSection" (state_after (conversion host) s) = Some true
  ∧ property disabled "convertBtn" (state_after (conversion host) s)
    = Some false
  ∧ has_class "processing" "convertBtn" (state_after (conversion host) s)
    = Some false
  ∧ currentFile (state_after (conversion host) s) = Some f
  ∧ trace (state_after (conversion host) s)
    = (trace s ++ [EvProgress 20 "Loading image...";
                   EvReadAsDataURL ConvertReader f;
                   EvImgSrc url;
                   EvFocus "errorMessage"])%list.
Proof.
  intros Hpage Hfile Hsel Hne Hread Hdec.
  destruct (conversion_ends_in_onerror s host f format url)
    as (s2 & Hp2 & Hf2 & Ht2 & Hconv); [done..|].
  page_elements Hp2. unfold completes, state_after, shows_error.
  rewrite Hconv, img_onerror_run by done. cbn [fst snd].
  split; [done|].
  repeat split; try observe_property.
  - done.
  - cbn [trace]. by rewrite Ht2, <- app_assoc.
Qed.

Lemma conversion_decode_failure_recovers_witness :
  shows_error msg_load_failed (state_after (conversion host_decode_fails) page_webp)
  ∧ property disabled "convertBtn"
      (state_after (conversion host_decode_fails) page_webp) = Some false.
Proof.
  destruct (conversion_decode_failure_recovers page_webp host_decode_fails
              photo_png "webp" "data:image/png;base64,AAAA")
    as (_ & Herror & _ & Hdisabled & _);
    [reflexivity | reflexivity | reflexivity | discriminate
    | reflexivity | reflexivity |].
  split; [exact Herror | exact Hdisabled].
Defined.

(** X13: when the file reader fails, no callback of the conversion runs:
    the page is left as [convertImage] left it, with the convert button
    disabled, the progress section shown at 20%, and the error section and
    message as they were before the click. *)
Theorem conversion_read_failure_stalls (s : Converter) (host : Host) (f : File)
    (format quality : string) :
  page_ok s → currentFile s = Some f →
  selected_format s = Some format → format ≠ "" →
  property value "qualitySlider" s = Some quality →
  read_result host = None →
  completes (conversion host) s = true
  ∧ property disabled "convertBtn" (state_after (conversion host) s) = Some true
  ∧ hidden "progressSection" (state_after (conversion host) s) = Some false
  ∧ property style_width "progressBar" (state_after (conversion host) s)
    = Some "20%"
  ∧ hidden "errorSection" (state_after (conversion host) s)
    = hidden "errorSection" s
  ∧ errorMessage (state_after (conversion host) s) = errorMessage s
  ∧ trace (state_after (conversion host) s)
    = (trace s ++ [EvProgress 20 "Loading image...";
                   EvReadAsDataURL ConvertReader f])%list.
Proof.
  intros Hpage Hfile Hsel Hne Hq Hread. page_elements Hpage.
  unfold completes, state_after, conversion.
  rewrite (bind_inr _ _ _ _ _ (convertImage_run s f format quality
                                 Hpage Hfile Hsel Hne Hq)), Hread.
  cbn [fst snd mret M_ret].
  split; [done|]. split; [observe_property|]. split; [observe_property|].
  split; [observe_property|].
  split; [unfold hidden; by lookups|]. split; [unfold errorMessage; by lookups|].
  done.
Qed.

Lemma conversion_read_failure_stalls_witness :
  property disabled "convertBtn"
    (state_after (conversion host_read_fails) page_webp) = Some true
  ∧ hidden "progressSection"
      (state_after (conversion host_read_fails) page_webp) = Some false.
Proof.
  destruct (conversion_read_failure_stalls page_webp host_read_fails
              photo_png "webp" "80")
    as (_ & Hdisabled & Hshown & _);
    [reflexivity | reflexivity | reflexivity | discriminate
    | reflexivity | reflexivity |].
  split; [exact Hdisabled | exact Hshown].
Defined.

(** *** The empty option of the format select *)

(** X14: with the empty option selected, [handleFormatChange] hides the
    convert button and the quality section and returns: an error on display
    stays on display, with its message. *)
Theorem handleFormatChange_no_format (s : Converter) :
  page_ok s → selected_format s = Some "" →
  completes handleFormatChange s = true
  ∧ hidden "convertBtn" (state_after handleFormatChange s) = Some true
  ∧ hidden "qualitySection" (state_after handleFormatChange s) = Some true
  ∧ hidden "errorSection" (state_after handleFormatChange s)
    = hidden "errorSection" s
  ∧ errorMessage (state_after handleFormatChange s) = errorMessage s
  ∧ trace (state_after handleFormatChange s) = trace s.
Proof.
  intros Hpage Hsel. page_elements Hpage.
  unfold completes, state_after.
  rewrite handleFormatChange_empty by done. cbn [fst snd].
  split; [done|]. split; [observe|]. split; [observe|].
  split; [unfold hidden; by lookups|]. split; [unfold errorMessage; by lookups|].
  done.
Qed.

Lemma handleFormatChange_no_format_witness :
  completes handleFormatChange page_no_format = true
  ∧ hidden "convertBtn" (state_after handleFormatChange page_no_format)
    = Some true
  ∧ hidden "qualitySection" (state_after handleFormatChange page_no_format)
    = Some true
  ∧ hidden "errorSection" (state_after handleFormatChange page_no_format)
    = hidden "errorSection" page_no_format
  ∧ errorMessage (state_after handleFormatChange page_no_format)
    = errorMessage page_no_format
  ∧ trace (state_after handleFormatChange page_no_format)
    = trace page_no_format.
Proof.
  apply (handleFormatChange_no_format page_no_format); reflexivity.
Defined.

(** *** The current file, over any sequence of events *)

Lemma file_safe_ret {A} (a : A) : file_safe (mret a).
Proof. intros s. by left. Qed.

Lemma file_safe_throw {A} (e : Exn) : file_safe (throw (A := A) e).
Proof. intros s. by left. Qed.

Lemma file_safe_element (id : string) : file_safe (element id).
Proof. intros s. left. unfold element. by destruct (document s !! id). Qed.

Lemma file_safe_update (id : string) (f : Element → Element) :
  file_safe (update id f).
Proof. intros s. left. unfold update. by destruct (document s !! id). Qed.

Lemma file_safe_emit (ev : Event) : file_safe (emit ev).
Proof. intros s. by left. Qed.

Lemma file_safe_this_currentFile : file_safe this_currentFile.
Proof. intros s. by left. Qed.

Lemma file_safe_set_currentFile (f : File) :
  accepted f = true → file_safe (set_currentFile (Some f)).
Proof. intros Hf s. right. by exists f. Qed.

Lemma file_safe_bind {A B} (m : M A) (k : A → M B) :
  file_safe m → (∀ a, file_safe (k a)) → file_safe (m ≫= k).
Proof.
  intros Hm Hk s. specialize (Hm s). unfold mbind, M_bind.
  destruct (m s) as [[e|a] s1]; [done|].
  destruct (Hk a s1) as [Hsame|Hnew]; [|by right].
  cbn [snd] in Hm. by rewrite Hsame.
Qed.

Lemma file_safe_try_catch {A} (body : M A) (handler : Exn → M A) :
  file_safe body → (∀ e, file_safe (handler e)) →
  file_safe (try_catch body handler).
Proof.
  intros Hb Hh s. specialize (Hb s). unfold try_catch.
  destruct (body s) as [[e|a] s1]; [|done].
  destruct (Hh e s1) as [Hsame|Hnew]; [|by right].
  cbn [snd] in Hb. by rewrite Hsame.
Qed.

Lemma file_safe_showElement (id : string) : file_safe (showElement id).
Proof. apply file_safe_update. Qed.

Lemma file_safe_hideElement (id : string) : file_safe (hideElement id).
Proof. apply file_safe_update. Qed.

Create HintDb file_safe.

#[local] Hint Resolve file_safe_ret file_safe_throw file_safe_element
  file_safe_update file_safe_emit file_safe_this_currentFile
  file_safe_showElement file_safe_hideElement
  file_safe_bind file_safe_try_catch : file_safe.

(** Splits the tests of a program, then composes the lemmas above. *)
Ltac solve_file_safe :=
  repeat first
    [ progress intros
    | apply file_safe_bind
    | apply file_safe_try_catch
    | match goal with
      | |- file_safe (if ?c then _ else _) => destruct c eqn:?
      | |- file_safe (match ?x with _ => _ end) => destruct x eqn:?
      end
    | solve [ auto with file_safe ] ].

Lemma file_safe_showError (msg : string) : file_safe (showError msg).
Proof. unfold showError, showElement. solve_file_safe. Qed.

Lemma file_safe_clearError : file_safe clearError.
Proof. unfold clearError, hideElement. solve_file_safe. Qed.

Lemma file_safe_hideProgress : file_safe hideProgress.
Proof. unfold hideProgress, hideElement. solve_file_safe. Qed.

Lemma file_safe_handleFileSelect (file : option File) :
  file_safe (handleFileSelect file).
Proof.
  unfold handleFileSelect.
  destruct file as [f|]; [|apply file_safe_showError].
  destruct (String.prefix "image/" (type f)) eqn:Htype; cbn [negb];
    [|apply file_safe_showError].
  destruct (10 * 1024 * 1024 <? size f) eqn:Hsize; [apply file_safe_showError|].
  apply file_safe_bind; [|intros _].
  - apply file_safe_set_currentFile. unfold accepted. rewrite Htype.
    apply Z.ltb_ge in Hsize. by apply Z.leb_le in Hsize as ->.
  - unfold showImagePreview, showElement, hideElement. solve_file_safe.
Qed.

#[local] Hint Resolve file_safe_showError file_safe_clearError
  file_safe_hideProgress file_safe_handleFileSelect : file_safe.

Lemma file_safe_listener (ev : PageEvent) : file_safe (listener ev).
Proof.
  destruct ev; cbn [listener];
    unfold on_fileInput_change, uploadArea_dragover, uploadArea_dragleave,
      uploadArea_drop, on_drop, uploadArea_touchstart, uploadArea_touchend,
      handleFormatChange, convertImage, quality_timeout, reader_onload,
      img_onload, img_onerror, showDownload, mobileMenuBtn_click,
      document_click, window_resize, showProgress, updateProgress,
      showElement, hideElement;
    solve_file_safe.
Qed.

(** X15: on any page, and whatever the events of [PageEvent] the browser
    delivers, in whatever order and even when some listeners throw, the
    current file is never a file that fails the two tests of
    [handleFileSelect]: it is null, or its type starts with "image/" and its
    size is at most 10 MiB. *)
Theorem currentFile_always_accepted (evs : list PageEvent) (s : Converter) :
  currentFile_accepted s = true →
  currentFile_accepted (handle_all evs s) = true.
Proof.
  revert s. induction evs as [|ev rest IH]; intros s Hs; [done|].
  cbn [handle_all]. apply IH. unfold currentFile_accepted, state_after.
  destruct (file_safe_listener ev s) as [->|(f & -> & Hf)]; done.
Qed.

Lemma currentFile_always_accepted_witness :
  currentFile_accepted
    (handle_all [FileInputChange (Some huge_text); UploadAreaDrop (Some photo_png);
                 FileInputChange (Some huge_png); ConvertBtnClick]
       (full_page None "webp" false))
  = true.
Proof.
  apply (currentFile_always_accepted
           [FileInputChange (Some huge_text); UploadAreaDrop (Some photo_png);
            FileInputChange (Some huge_png); ConvertBtnClick]
           (full_page None "webp" false)).
  reflexivity.
Defined.

(** X16: no listener or callback of [PageEvent] resets the current file:
    once a file is selected, a file stays selected after any sequence of
    events, on any page. *)
Theorem currentFile_never_cleared (evs : list PageEvent) (s : Converter) :
  is_Some (currentFile s) → is_Some (currentFile (handle_all evs s)).
Proof.
  revert s. induction evs as [|ev rest IH]; intros s Hs; [done|].
  cbn [handle_all]. apply IH. unfold state_after.
  destruct (file_safe_listener ev s) as [->|(f & -> & _)]; [done|by exists f].
Qed.

Lemma currentFile_never_cleared_witness :
  is_Some
    (currentFile
       (handle_all [FileInputChange None; UploadAreaDrop (Some huge_text);
                    FormatSelectChange "heic"; ConvertBtnClick; ImgOnerror]
          (full_page (Some photo_png) "webp" false))).
Proof.
  apply (currentFile_never_cleared
           [FileInputChange None; UploadAreaDrop (Some huge_text);
            FormatSelectChange "heic"; ConvertBtnClick; ImgOnerror]
           (full_page (Some photo_png) "webp" false)).
  vm_compute. eexists. reflexivity.
Defined.

Lemma page_ok_alters (s s' : Converter) :
  (∀ id, is_Some (document s' !! id) ↔ is_Some (document s !! id)) →
  page_ok s → page_ok s'.
Proof. apply page_ok_same_elements. Qed.

Lemma accepted_tests (f : File) :
  accepted f = true →
  String.prefix "image/" (type f) = true ∧ size f ≤ 10 * 1024 * 1024.
Proof.
  unfold accepted. intros [Htype Hsize]%andb_true_iff.
  split; [done|]. by apply Z.leb_le.
Qed.

(** X17: the download is named after the file that is current when the
    timer of a conversion fires, not after the file that was converted: when
    another file is accepted between the click and the timer, the link
    carries the converted data under the name derived from the new file. *)
Theorem download_named_after_latest_file (s : Converter) (f2 : File)
    (dataUrl format : string) :
  page_ok s → accepted f2 = true →
  property href "downloadLink"
    (handle_all [FileInputChange (Some f2); DownloadTimeout dataUrl format] s)
  = Some dataUrl
  ∧ property download "downloadLink"
      (handle_all [FileInputChange (Some f2); DownloadTimeout dataUrl format] s)
    = Some (download_fileName (name f2) format).
Proof.
  intros Hpage [Htype Hsize]%accepted_tests.
  cbn [handle_all listener]. unfold state_after.
  rewrite on_fileInput_change_accept_run by done. cbn [snd].
  match goal with
  | |- context [showDownload _ _ ?s1] =>
      assert (page_ok s1) as Hp1
        by (apply (page_ok_alters s); [|done]; intros id;
            cbn [document]; by rewrite !lookup_alter_is_Some);
      set (S1 := s1) in *
  end.
  page_elements Hp1.
  rewrite (showDownload_run S1 f2) by done. cbn [snd].
  split; observe_property.
Qed.

Lemma download_named_after_latest_file_witness :
  property href "downloadLink"
    (handle_all [FileInputChange (Some other_png);
                 DownloadTimeout "data:image/webp;base64,UklGRg==" "webp"]
       (state_after convertImage page_webp))
  = Some "data:image/webp;base64,UklGRg=="
  ∧ property download "downloadLink"
      (handle_all [FileInputChange (Some other_png);
                   DownloadTimeout "data:image/webp;base64,UklGRg==" "webp"]
         (state_after convertImage page_webp))
    = Some (download_fileName (name other_png) "webp").
Proof.
  apply (download_named_after_latest_file (state_after convertImage page_webp)
           other_png "data:image/webp;base64,UklGRg==" "webp");
    reflexivity.
Defined.

(** X18: a dropped file whose type starts with "image/" is handled as a
    [dragleave] followed by a change of the file input to that file. *)
Theorem uploadArea_drop_image (s : Converter) (f : File) :
  present "uploadArea" s →
  String.prefix "image/" (type f) = true →
  uploadArea_drop (Some f) s
  = on_fileInput_change (Some f) (state_after uploadArea_dragleave s).
Proof.
  intros Hup Htype. unfold uploadArea_drop, uploadArea_dragleave, state_after.
  rewrite (bind_inr _ _ _ _ _ (update_run _ _ _ Hup)).
  rewrite (update_run _ _ _ Hup). cbn [snd].
  unfold on_drop. by rewrite Htype.
Qed.

Lemma uploadArea_drop_image_witness :
  uploadArea_drop (Some photo_png) (full_page None "" false)
  = on_fileInput_change (Some photo_png)
      (state_after uploadArea_dragleave (full_page None "" false)).
Proof.
  apply (uploadArea_drop_image (full_page None "" false) photo_png).
  - vm_compute. eexists. reflexivity.
  - reflexivity.
Defined.

(** *** The mobile menu *)

Ltac menu_elements H :=
  let get id :=
    let Hid := fresh "Hpresent" in
    assert (present id _) as Hid
      by (apply (has_elements_present _ _ id H), list_elem_of_In; simpl; tauto) in
  get "mobileMenu"; get "menuIcon"; get "closeIcon".

Lemma close_menu_run (s : Converter) :
  menu_ok s →
  (hideElement "mobileMenu";; showElement "menuIcon";; hideElement "closeIcon") s
  = (inr tt,
     set_document
       (alter (classList_add "hidden") "closeIcon"
          (alter (classList_remove "hidden") "menuIcon"
             (alter (classList_add "hidden") "mobileMenu" (document s)))) s).
Proof.
  intros Hmenu. menu_elements Hmenu.
  run_with hideElement_run. run_with showElement_run. run_with hideElement_run.
Qed.

Lemma open_menu_run (s : Converter) :
  menu_ok s →
  (showElement "mobileMenu";; hideElement "menuIcon";; showElement "closeIcon") s
  = (inr tt,
     set_document
       (alter (classList_remove "hidden") "closeIcon"
          (alter (classList_add "hidden") "menuIcon"
             (alter (classList_remove "hidden") "mobileMenu" (document s)))) s).
Proof.
  intros Hmenu. menu_elements Hmenu.
  run_with showElement_run. run_with hideElement_run. run_with showElement_run.
Qed.

Lemma hidden_element (s : Converter) (id : string) (b : bool) :
  hidden id s = Some b →
  ∃ e, document s !! id = Some e ∧ bool_decide ("hidden" ∈ classList e) = b.
Proof.
  unfold hidden. destruct (document s !! id) as [e|]; [|done].
  intros [= <-]. by exists e.
Qed.

(** X19: a click on the menu button, handled by the button's listener and
    then by the document's, toggles the menu and keeps the icons in step: a
    hidden menu is shown, with the menu icon hidden and the close icon shown;
    a shown menu is hidden, with the menu icon shown and the close icon
    hidden. *)
Theorem click_on_menu_button_toggles (s : Converter) (was_hidden : bool) :
  menu_ok s → hidden "mobileMenu" s = Some was_hidden →
  completes click_on_menu_button s = true
  ∧ hidden "mobileMenu" (state_after click_on_menu_button s)
    = Some (negb was_hidden)
  ∧ hidden "menuIcon" (state_after click_on_menu_button s) = Some was_hidden
  ∧ hidden "closeIcon" (state_after click_on_menu_button s)
    = Some (negb was_hidden).
Proof.
  intros Hmenu (e & He & Hb)%hidden_element. menu_elements Hmenu.
  unfold completes, state_after, click_on_menu_button, mobileMenuBtn_click.
  rewrite <- Hb.
  assert (∀ m : M unit, (m ≫= λ _, document_click true false) s = m s) as ->.
  { intros m. unfold mbind, M_bind, document_click. cbn [negb andb].
    by destruct (m s) as [[?|[]] ?]. }
  rewrite (bind_inr _ _ _ _ _ (element_run _ _ _ He)).
  destruct (bool_decide ("hidden" ∈ classList e)).
  - rewrite open_menu_run by done. cbn [fst snd negb].
    split; [done|]. repeat split; observe.
  - rewrite close_menu_run by done. cbn [fst snd negb].
    split; [done|]. repeat split; observe.
Qed.

Lemma click_on_menu_button_toggles_witness :
  completes click_on_menu_button (full_page None "" false) = true
  ∧ hidden "mobileMenu" (state_after click_on_menu_button (full_page None "" false))
    = Some (negb true)
  ∧ hidden "menuIcon" (state_after click_on_menu_button (full_page None "" false))
    = Some true
  ∧ hidden "closeIcon" (state_after click_on_menu_button (full_page None "" false))
    = Some (negb true).
Proof.
  apply (click_on_menu_button_toggles (full_page None "" false) true);
    reflexivity.
Defined.

(** X20: a click whose target is outside the menu button and outside the
    menu closes the menu (menu hidden, menu icon shown, close icon hidden); a
    click inside either of them is left alone by the document's listener. *)
Theorem document_click_closes_menu (s : Converter) (in_button in_menu : bool) :
  menu_ok s →
  completes (document_click in_button in_menu) s = true
  ∧ (in_button = false → in_menu = false →
     hidden "mobileMenu" (state_after (document_click in_button in_menu) s)
     = Some true
     ∧ hidden "menuIcon" (state_after (document_click in_button in_menu) s)
       = Some false
     ∧ hidden "closeIcon" (state_after (document_click in_button in_menu) s)
       = Some true)
  ∧ (in_button = true ∨ in_menu = true →
     state_after (document_click in_button in_menu) s = s).
Proof.
  intros Hmenu. menu_elements Hmenu.
  unfold completes, state_after, document_click.
  destruct in_button, in_menu; cbn [negb andb];
    rewrite ?close_menu_run by done; cbn [fst snd];
    (split; [done|]);
    (split; [intros Hb Hm; try done | intros [Hb|Hm]; try done]).
  repeat split; observe.
Qed.

Lemma document_click_closes_menu_witness :
  hidden "mobileMenu"
    (state_after (document_click false false) (full_page None "" true))
  = Some true.
Proof.
  destruct (document_click_closes_menu (full_page None "" true) false false)
    as (_ & Hcloses & _); [reflexivity|].
  by destruct Hcloses as (Hmenu & _).
Defined.

(** X21: a resize to a window at least 768 wide closes the menu, 768
    included; a resize to a narrower window changes nothing. *)
Theorem window_resize_closes_menu (s : Converter) (innerWidth : Z) :
  menu_ok s →
  completes (window_resize innerWidth) s = true
  ∧ (768 ≤ innerWidth →
     hidden "mobileMenu" (state_after (window_resize innerWidth) s) = Some true
     ∧ hidden "menuIcon" (state_after (window_resize innerWidth) s) = Some false
     ∧ hidden "closeIcon" (state_after (window_resize innerWidth) s) = Some true)
  ∧ (innerWidth < 768 → state_after (window_resize innerWidth) s = s).
Proof.
  intros Hmenu. menu_elements Hmenu.
  unfold completes, state_after, window_resize.
  destruct (768 <=? innerWidth) eqn:Hw.
  - rewrite close_menu_run by done. cbn [fst snd]. split; [done|].
    split; [intros _; repeat split; observe|].
    apply Z.leb_le in Hw. lia.
  - apply Z.leb_gt in Hw. cbn [fst snd mret M_ret]. split; [done|].
    split; [lia|done].
Qed.

Lemma window_resize_closes_menu_witness :
  hidden "mobileMenu" (state_after (window_resize 768) (full_page None "" true))
  = Some true.
Proof.
  destruct (window_resize_closes_menu (full_page None "" true) 768)
    as (_ & Hcloses & _); [reflexivity|].
  destruct Hcloses as (Hmenu & _); [lia|]. exact Hmenu.
Defined.

(** *** The preview *)

Lemma preview_writes_run (s : Converter) (file : File) :
  preview_ok s →
  (update "fileName" (set_textContent (name file));;
   update "fileInfo" (set_textContent (fileInfo_text file));;
   showElement "imagePreview") s
  = (inr tt,
     set_document
       (alter (classList_remove "hidden") "imagePreview"
          (alter (set_textContent (fileInfo_text file)) "fileInfo"
             (alter (set_textContent (name file)) "fileName" (document s)))) s).
Proof.
  intros Hpreview.
  assert (present "fileName" s)
    by (apply (has_elements_present _ _ _ Hpreview), list_elem_of_In;
        simpl; tauto).
  assert (present "fileInfo" s)
    by (apply (has_elements_present _ _ _ Hpreview), list_elem_of_In;
        simpl; tauto).
  assert (present "imagePreview" s)
    by (apply (has_elements_present _ _ _ Hpreview), list_elem_of_In;
        simpl; tauto).
  run_with update_run. run_with update_run. run_with showElement_run.
Qed.

(** X22: when the reader of the preview delivers its data URL, the
    preview image gets it as source, the name, size and type shown are those
    of the file the reader was started for (whatever the current file is by
    then), the preview is shown, and the current file is not touched. *)
Theorem preview_onload_shows_file (p : Page) (file : File) (result : string) :
  preview_ok (converter p) →
  (preview_onload file result p).1 = inr tt
  ∧ img_src (preview_onload file result p).2 !! "previewImg" = Some result
  ∧ property textContent "fileName" (converter (preview_onload file result p).2)
    = Some (name file)
  ∧ property textContent "fileInfo" (converter (preview_onload file result p).2)
    = Some (fileInfo_text file)
  ∧ hidden "imagePreview" (converter (preview_onload file result p).2)
    = Some false
  ∧ currentFile (converter (preview_onload file result p).2)
    = currentFile (converter p).
Proof.
  intros Hpreview.
  assert (present "previewImg" (converter p)) as [img Himg]
    by (apply (has_elements_present _ _ _ Hpreview), list_elem_of_In;
        simpl; tauto).
  assert (present "fileName" (converter p))
    by (apply (has_elements_present _ _ _ Hpreview), list_elem_of_In;
        simpl; tauto).
  assert (present "fileInfo" (converter p))
    by (apply (has_elements_present _ _ _ Hpreview), list_elem_of_In;
        simpl; tauto).
  assert (present "imagePreview" (converter p))
    by (apply (has_elements_present _ _ _ Hpreview), list_elem_of_In;
        simpl; tauto).
  unfold preview_onload. rewrite Himg, preview_writes_run by done.
  cbn [fst snd converter img_src].
  split; [done|]. split; [by rewrite lookup_insert_eq|].
  repeat split; (observe_property || done).
Qed.

Lemma preview_onload_shows_file_witness :
  property textContent "fileInfo"
    (converter
       (preview_onload limit_png "data:image/png;base64,iVBORw0KGgo="
          {| converter := full_page (Some photo_png) "" false; img_src := ∅ |}).2)
  = Some "10.00 MB â€¢ image/png".
Proof.
  destruct (preview_onload_shows_file
              {| converter := full_page (Some photo_png) "" false; img_src := ∅ |}
              limit_png "data:image/png;base64,iVBORw0KGgo=")
    as (_ & _ & _ & Hinfo & _); [reflexivity|].
  exact Hinfo.
Defined.

(** The two digits printed after the dot, for each of the hundred values
    they can take. *)
Lemma two_digits_checked :
  forallb (λ k, let d := Z.of_nat k in
                String.eqb (two_digits d) (pretty (d / 10) +:+ pretty (d mod 10))
                && Nat.eqb (String.length (two_digits d)) 2)
          (seq 0 100) = true.
Proof. vm_compute. reflexivity. Qed.

Lemma two_digits_spec (d : Z) :
  0 ≤ d < 100 →
  two_digits d = pretty (d / 10) +:+ pretty (d mod 10)
  ∧ String.length (two_digits d) = 2%nat.
Proof.
  intros Hd. pose proof two_digits_checked as Hall.
  rewrite forallb_forall in Hall.
  specialize (Hall (Z.to_nat d)). rewrite Z2Nat.id in Hall by lia.
  assert (In (Z.to_nat d) (seq 0 100)) as Hin by (apply in_seq; lia).
  apply Hall, andb_true_iff in Hin as [Heq Hlen].
  split; [by apply String.eqb_eq | by apply Nat.eqb_eq].
Qed.

(** X23: the size shown in the preview, [(size / 1024 / 1024).toFixed(2)],
    is printed as an integer, a dot and exactly two digits, and the number so
    printed is the number of hundredths of a MiB nearest to the file's size
    (the larger one on a tie); for a file that passes the size test it is at
    most 10.00. *)
Theorem toFixed2_MB_nearest (size : Z) :
  0 ≤ size →
  ∃ whole tens units : Z,
    0 ≤ whole ∧ 0 ≤ tens ≤ 9 ∧ 0 ≤ units ≤ 9
    ∧ toFixed2_MB size = pretty whole +:+ "." +:+ pretty tens +:+ pretty units
    ∧ String.length (pretty tens +:+ pretty units) = 2%nat
    ∧ - 1048576
      ≤ 2 * (100 * size - 1048576 * (100 * whole + 10 * tens + units))
      < 1048576
    ∧ (size ≤ 10 * 1024 * 1024 → 100 * whole + 10 * tens + units ≤ 1000).
Proof.
  intros Hsize. unfold toFixed2_MB. set (n := hundredths_of_MB size).
  assert (0 ≤ n
          ∧ - 1048576 ≤ 2 * (100 * size - 1048576 * n) < 1048576
          ∧ (size ≤ 10 * 1024 * 1024 → n ≤ 1000)) as (Hn & Hnear & Hmax).
  { unfold n, hundredths_of_MB.
    pose proof (Z.div_mod (200 * size + 1048576) 2097152 ltac:(lia)).
    pose proof (Z.mod_pos_bound (200 * size + 1048576) 2097152 ltac:(lia)).
    pose proof (Z.div_pos (200 * size + 1048576) 2097152 ltac:(lia) ltac:(lia)).
    lia. }
  pose proof (Z.mod_pos_bound n 100 ltac:(lia)) as Hfrac.
  destruct (two_digits_spec (n mod 100) Hfrac) as [Hdigits Hlen].
  pose proof (Z.div_mod n 100 ltac:(lia)) as Hwhole.
  pose proof (Z.div_mod (n mod 100) 10 ltac:(lia)) as Htens.
  pose proof (Z.mod_pos_bound (n mod 100) 10 ltac:(lia)) as Hunits.
  pose proof (Z.div_pos n 100 Hn ltac:(lia)).
  pose proof (Z.div_pos (n mod 100) 10 ltac:(lia) ltac:(lia)).
  assert (n mod 100 / 10 ≤ 9) by (apply Z.lt_succ_r, Z.div_lt_upper_bound; lia).
  exists (n / 100), (n mod 100 / 10), (n mod 100 mod 10).
  split; [lia|]. split; [lia|]. split; [lia|].
  split; [by rewrite Hdigits|]. split; [by rewrite <- Hdigits|].
  split; [lia|]. intros Hlimit. specialize (Hmax Hlimit). lia.
Qed.

Lemma toFixed2_MB_nearest_witness :
  toFixed2_MB 1100000 = "1.05"
  ∧ ∃ whole tens units : Z,
      0 ≤ whole ∧ 0 ≤ tens ≤ 9 ∧ 0 ≤ units ≤ 9
      ∧ toFixed2_MB 1100000
        = pretty whole +:+ "." +:+ pretty tens +:+ pretty units
      ∧ String.length (pretty tens +:+ pretty units) = 2%nat
      ∧ - 1048576
        ≤ 2 * (100 * 1100000 - 1048576 * (100 * whole + 10 * tens + units))
        < 1048576
      ∧ (1100000 ≤ 10 * 1024 * 1024 → 100 * whole + 10 * tens + units ≤ 1000).
Proof.
  split; [reflexivity|]. apply (toFixed2_MB_nearest 1100000). lia.
Defined.

(** *** The progress bar during a conversion *)

Lemma bind_assoc {A B C} (m : M A) (k : A → M B) (k' : B → M C) (s : Converter) :
  ((m ≫= k) ≫= k') s = (m ≫= λ a, k a ≫= k') s.
Proof. unfold mbind, M_bind. by destruct (m s) as [[e|a] s1]. Qed.

Lemma bind_cong {A B} (m m' : M A) (k : A → M B) (s : Converter) :
  m s = m' s → (m ≫= k) s = (m' ≫= k) s.
Proof. unfold mbind, M_bind. by intros ->. Qed.

Lemma bind_ext {A B} (m : M A) (k k' : A → M B) (s : Converter) :
  (∀ a s1, k a s1 = k' a s1) → (m ≫= k) s = (m ≫= k') s.
Proof. intros Hk. unfold mbind, M_bind. by destruct (m s) as [[e|a] s1]. Qed.

(** [img.onload] is its three parts, one after the other. *)
Lemma img_onload_parts (job : Job) (w h : Z) (encoded : string) (s : Converter) :
  img_onload job w h encoded s
  = (img_onload_to_50;;
     img_onload_to_80 job w h;;
     img_onload_to_100 job encoded) s.
Proof.
  unfold img_onload, img_onload_to_50, img_onload_to_80, img_onload_to_100.
  apply bind_ext. intros _ s1. rewrite bind_assoc.
  apply bind_ext. intros canvas s2. rewrite bind_assoc.
  apply bind_ext. intros _ s3. reflexivity.
Qed.

Lemma pretty_percents :
  pretty 50 +:+ "%" = "50%" ∧ pretty 80 +:+ "%" = "80%"
  ∧ pretty 100 +:+ "%" = "100%".
Proof. by repeat split. Qed.

Lemma img_onload_to_50_run (s : Converter) :
  present "progressBar" s → present "progressText" s →
  img_onload_to_50 s
  = (inr tt,
     {| currentFile := currentFile s;
        document :=
          alter (set_textContent "Processing image...") "progressText"
            (alter (set_style_width "50%") "progressBar" (document s));
        trace := trace s ++ [EvProgress 50 "Processing image..."] |}).
Proof.
  intros Hb Ht. unfold img_onload_to_50.
  rewrite updateProgress_run by done.
  by destruct pretty_percents as (-> & _).
Qed.

Lemma img_onload_to_80_run (s : Converter) (job : Job) (w h : Z) :
  present "progressBar" s → present "progressText" s →
  img_onload_to_80 job w h s
  = (inr tt,
     {| currentFile := currentFile s;
        document :=
          alter (set_textContent "Converting format...") "progressText"
            (alter (set_style_width "80%") "progressBar" (document s));
        trace :=
          trace s
          ++ (if String.eqb (job_format job) "jpeg"
              then [EvFillRect "white" 0 0 w h] else [])
          ++ [EvDrawImage 0 0; EvProgress 80 "Converting format..."] |}).
Proof.
  intros Hb Ht. unfold img_onload_to_80.
  destruct pretty_percents as (_ & H80 & _).
  destruct (String.eqb (job_format job) "jpeg").
  - rewrite bind_assoc. erewrite bind_inr by apply emit_run.
    erewrite bind_inr by reflexivity.
    erewrite bind_inr by apply emit_run.
    rewrite updateProgress_run by present.
    cbn [currentFile document trace fillStyle width height set_fillStyle
         set_height set_width].
    by rewrite H80, <- !app_assoc.
  - erewrite bind_inr by reflexivity.
    erewrite bind_inr by apply emit_run.
    rewrite updateProgress_run by present.
    cbn [currentFile document trace]. by rewrite H80, <- !app_assoc.
Qed.

Lemma img_onload_to_100_run (s : Converter) (job : Job) (encoded : string) :
  present "progressBar" s → present "progressText" s →
  img_onload_to_100 job encoded s
  = (inr encoded,
     {| currentFile := currentFile s;
        document :=
          alter (set_textContent "Complete!") "progressText"
            (alter (set_style_width "100%") "progressBar" (document s));
        trace :=
          trace s
          ++ [EvToDataURL (if String.eqb (job_format job) "jpeg"
                           then "image/jpeg"
                           else "image/" +:+ job_format job) (job_quality job);
              EvProgress 100 "Complete!";
              EvSetTimeout 500] |}).
Proof.
  intros Hb Ht. unfold img_onload_to_100.
  destruct pretty_percents as (_ & _ & H100).
  erewrite bind_inr by apply emit_run.
  erewrite bind_inr by (apply updateProgress_run; present).
  erewrite bind_inr by apply emit_run.
  cbn [currentFile document trace mret M_ret].
  by rewrite H100, <- !app_assoc.
Qed.



